(** * weather_cli.py: a shallow embedding and its verified properties

    The program is a single Python file.  Its data are the dictionaries that
    [json] decoding produces, its failures are Python exceptions, and its
    effects are one HTTP request and a few [print] calls.  The embedding keeps
    all three: values are a [json] tree, every operation that can raise
    returns a [result], the request log and the printed lines are threaded
    explicitly. *)

From Stdlib Require Import Bool Ascii String List ZArith Lia DecimalString.
From Stdlib Require Import Permutation.
Import ListNotations.
Open Scope string_scope.

Set Implicit Arguments.

(** ** Exceptions and the error monad *)

(** The exception classes the program can meet.  [RequestException] stands
    for [requests.exceptions.RequestException] and all its subclasses
    (ConnectionError, Timeout, HTTPError, ...).  [KeyboardInterrupt] and
    [SystemExit] derive from [BaseException] only. *)
Inductive exn_class :=
| KeyboardInterrupt
| SystemExit
| RequestException
| KeyError
| IndexError
| TypeError
| AttributeError
| ValueError
| OtherException.

(** An exception: its class and [str(e)]. *)
Record exn := Exn { exn_cls : exn_class; exn_str : string }.

(** [isinstance(e, Exception)] *)
Definition is_Exception (c : exn_class) : bool :=
  match c with
  | KeyboardInterrupt | SystemExit => false
  | _ => true
  end.

(** [isinstance(e, requests.exceptions.RequestException)] *)
Definition is_RequestException (c : exn_class) : bool :=
  match c with
  | RequestException => true
  | _ => false
  end.

(** [isinstance(e, KeyboardInterrupt)] *)
Definition is_KeyboardInterrupt (c : exn_class) : bool :=
  match c with
  | KeyboardInterrupt => true
  | _ => false
  end.

Inductive result (A : Type) : Type :=
| Ok (a : A)
| Raise (e : exn).
Arguments Ok {A} a.
Arguments Raise {A} e.

Definition bind {A B} (r : result A) (k : A -> result B) : result B :=
  match r with
  | Ok a => k a
  | Raise e => Raise e
  end.

Declare Scope py_scope.
Delimit Scope py_scope with py.
Notation "x <- c1 ;; c2" := (bind c1 (fun x => c2))
  (at level 61, c1 at next level, right associativity) : py_scope.
Open Scope py_scope.

Definition raise {A} (c : exn_class) (msg : string) : result A :=
  Raise (Exn c msg).

Definition is_ok {A} (r : result A) : bool :=
  match r with Ok _ => true | Raise _ => false end.

(** [try: body  except cls as e: handler(e)] *)
Definition try_except {A} (body : result A) (cls : exn_class -> bool)
    (handler : exn -> result A) : result A :=
  match body with
  | Ok a => Ok a
  | Raise e => if cls (exn_cls e) then handler e else Raise e
  end.

(** ** Strings *)

Definition nl : string := String (ascii_of_nat 10) "".

(** [c * n] for a one-character string *)
Fixpoint str_repeat (s : string) (n : nat) : string :=
  match n with
  | O => ""
  | S n' => s ++ str_repeat s n'
  end.

(** [p in s] between two strings: [p] occurs in [s] as a contiguous run. *)
Fixpoint str_contains (p s : string) : bool :=
  match s with
  | EmptyString => prefix p ""
  | String _ s' => prefix p s || str_contains p s'
  end.

(** [s.split(' ')[0]]: the text before the first space, all of [s] when it
    has none. *)
Fixpoint before_space (s : string) : string :=
  match s with
  | EmptyString => ""
  | String c s' => if Ascii.eqb c " " then "" else String c (before_space s')
  end.

(** ** Values *)

(** A number as the json decoder yields it.  The program never computes with
    a float, it only prints it, so a float is identified by its shortest
    round-trip decimal text, which is what [str] prints. *)
Inductive number :=
| PyInt (z : Z)
| PyFloat (repr : string).

#[warnings="-register-all"] Inductive json :=
| JNull
| JBool (b : bool)
| JNum (n : number)
| JStr (s : string)
| JList (l : list json)
| JDict (d : list (string * json)).

Definition number_str (n : number) : string :=
  match n with
  | PyInt z => NilZero.string_of_int (Z.to_int z)
  | PyFloat r => r
  end.

Definition type_name (v : json) : string :=
  match v with
  | JNull => "NoneType"
  | JBool _ => "bool"
  | JNum (PyInt _) => "int"
  | JNum (PyFloat _) => "float"
  | JStr _ => "str"
  | JList _ => "list"
  | JDict _ => "dict"
  end.

(** [bool(v)] *)
Definition truthy (v : json) : bool :=
  match v with
  | JNull => false
  | JBool b => b
  | JNum (PyInt z) => negb (Z.eqb z 0)
  | JNum (PyFloat r) => negb (String.eqb r "0.0" || String.eqb r "-0.0")
  | JStr s => negb (String.eqb s "")
  | JList l => match l with [] => false | _ => true end
  | JDict d => match d with [] => false | _ => true end
  end.

(** A dict as an association list; a key's value is its first binding. *)
Fixpoint dict_lookup {V} (k : string) (d : list (string * V)) : option V :=
  match d with
  | [] => None
  | (k', v) :: d' => if String.eqb k k' then Some v else dict_lookup k d'
  end.

Definition dict_has {V} (k : string) (d : list (string * V)) : bool :=
  match dict_lookup k d with Some _ => true | None => false end.

Definition quote (s : string) : string := "'" ++ s ++ "'".

Definition no_attribute {A} (v : json) (attr : string) : result A :=
  raise AttributeError
    (quote (type_name v) ++ " object has no attribute " ++ quote attr).

(** [v[k]] for a string key *)
Definition getitem (v : json) (k : string) : result json :=
  match v with
  | JDict d =>
      match dict_lookup k d with
      | Some x => Ok x
      | None => raise KeyError (quote k)
      end
  | JList _ => raise TypeError "list indices must be integers or slices, not str"
  | JStr _ => raise TypeError "string indices must be integers, not 'str'"
  | _ => raise TypeError (quote (type_name v) ++ " object is not subscriptable")
  end.

(** [v[0]].  On a string the result is its first character; the program only
    ever indexes that by a key next, which raises whatever the character. *)
Definition getitem0 (v : json) : result json :=
  match v with
  | JList (x :: _) => Ok x
  | JList [] => raise IndexError "list index out of range"
  | JStr (String c _) => Ok (JStr (String c ""))
  | JStr EmptyString => raise IndexError "string index out of range"
  | JDict _ => raise KeyError "0"
  | _ => raise TypeError (quote (type_name v) ++ " object is not subscriptable")
  end.

(** [v.get(k, default)] *)
Definition py_get (v : json) (k : string) (default : json) : result json :=
  match v with
  | JDict d =>
      match dict_lookup k d with
      | Some x => Ok x
      | None => Ok default
      end
  | _ => no_attribute v "get"
  end.

Definition is_str (k : string) (v : json) : bool :=
  match v with
  | JStr s => String.eqb k s
  | _ => false
  end.

(** [k in v] for a string [k] *)
Definition py_in (k : string) (v : json) : result bool :=
  match v with
  | JDict d => Ok (dict_has k d)
  | JList l => Ok (existsb (is_str k) l)
  | JStr s => Ok (str_contains k s)
  | _ => raise TypeError
           ("argument of type " ++ quote (type_name v) ++ " is not iterable")
  end.

(** [v.split(' ')[0]] *)
Definition split_first (v : json) : result string :=
  match v with
  | JStr s => Ok (before_space s)
  | _ => no_attribute v "split"
  end.

(** ** Calendar dates

    [datetime.strptime(date, '%Y-%m-%d').strftime('%A')] for text with ASCII
    digits.  (Python also reads the other Unicode decimal digits; here they
    raise, so every date accepted here is one Python accepts, and the
    properties below use acceptance as a premise only.)  The three fields
    are read as the format's patterns read them
    (four digits; a month [1[0-2]|0[1-9]|[1-9]]; a day
    [3[01]|[12]\d|0[1-9]|[1-9]]), nothing may follow the day, the date must
    exist in the proleptic Gregorian calendar, and the weekday comes from the
    date's ordinal as in [datetime.date.weekday]. *)

Definition is_digit (c : ascii) : bool :=
  (48 <=? nat_of_ascii c)%nat && (nat_of_ascii c <=? 57)%nat.

Definition digit_val (c : ascii) : Z := (Z.of_nat (nat_of_ascii c) - 48)%Z.

Definition parse_year (s : string) : option (Z * string) :=
  match s with
  | String a (String b (String c (String d r))) =>
      if is_digit a && is_digit b && is_digit c && is_digit d
      then Some ((1000 * digit_val a + 100 * digit_val b
                  + 10 * digit_val c + digit_val d)%Z, r)
      else None
  | _ => None
  end.

Definition parse_dash (s : string) : option string :=
  match s with
  | String c r => if Ascii.eqb c "-" then Some r else None
  | EmptyString => None
  end.

(** The month pattern is followed by a dash in the format, so a two-digit
    alternative that the dash does not follow gives way to the one-digit
    one. *)
Definition parse_month (s : string) : option (Z * string) :=
  let two :=
    match s with
    | String a (String b r) =>
        let v := (10 * digit_val a + digit_val b)%Z in
        if is_digit a && is_digit b && (1 <=? v)%Z && (v <=? 12)%Z
        then match parse_dash r with Some r' => Some (v, r') | None => None end
        else None
    | _ => None
    end in
  match two with
  | Some x => Some x
  | None =>
      match s with
      | String a r =>
          if is_digit a && (1 <=? digit_val a)%Z
          then match parse_dash r with
               | Some r' => Some (digit_val a, r')
               | None => None
               end
          else None
      | EmptyString => None
      end
  end.

(** The day pattern ends the format: its first alternative that matches
    wins, and what it leaves is unconverted data. *)
Definition parse_day (s : string) : option (Z * string) :=
  let two :=
    match s with
    | String a (String b r) =>
        let v := (10 * digit_val a + digit_val b)%Z in
        if is_digit a && is_digit b && (1 <=? v)%Z && (v <=? 31)%Z
        then Some (v, r)
        else None
    | _ => None
    end in
  match two with
  | Some x => Some x
  | None =>
      match s with
      | String a r =>
          if is_digit a && (1 <=? digit_val a)%Z
          then Some (digit_val a, r)
          else None
      | EmptyString => None
      end
  end.

Definition is_leap (y : Z) : bool :=
  ((y mod 4 =? 0) && (negb (y mod 100 =? 0) || (y mod 400 =? 0)))%Z.

Definition days_in_month (y m : Z) : Z :=
  if (m =? 2)%Z then (if is_leap y then 29%Z else 28%Z)
  else if ((m =? 4) || (m =? 6) || (m =? 9) || (m =? 11))%Z then 30%Z
  else 31%Z.

Definition days_before_year (y : Z) : Z :=
  let p := (y - 1)%Z in (p * 365 + p / 4 - p / 100 + p / 400)%Z.

Fixpoint days_before_month_aux (y : Z) (n : nat) : Z :=
  match n with
  | O => 0%Z
  | S n' => (days_before_month_aux y n' + days_in_month y (Z.of_nat n))%Z
  end.

(** days of year [y] before the first of month [m] *)
Definition days_before_month (y m : Z) : Z :=
  days_before_month_aux y (Z.to_nat (m - 1)).

(** [date(y, m, d).toordinal()]: 0001-01-01 is day 1 *)
Definition ymd2ord (y m d : Z) : Z :=
  (days_before_year y + days_before_month y m + d)%Z.

(** [date.weekday()]: Monday is 0 *)
Definition weekday (y m d : Z) : Z := ((ymd2ord y m d + 6) mod 7)%Z.

Definition day_names : list string :=
  ["Monday"; "Tuesday"; "Wednesday"; "Thursday"; "Friday"; "Saturday";
   "Sunday"].

Definition hex_digit (n : nat) : ascii :=
  nth n (list_ascii_of_string "0123456789abcdef") "0"%char.

Definition backslash : ascii := ascii_of_nat 92.
Definition double_quote : ascii := ascii_of_nat 34.

(** One character of [repr(s)] inside the quotes [q]. *)
Definition repr_char (q c : ascii) : string :=
  let n := nat_of_ascii c in
  if Ascii.eqb c backslash then String backslash (String backslash "")
  else if Ascii.eqb c q then String backslash (String c "")
  else if (n =? 10)%nat then String backslash "n"
  else if (n =? 13)%nat then String backslash "r"
  else if (n =? 9)%nat then String backslash "t"
  else if (n <? 32)%nat || (n =? 127)%nat
  then String backslash
         (String "x" (String (hex_digit (n / 16))
                        (String (hex_digit (n mod 16)) "")))
  else String c "".

Fixpoint repr_body (q : ascii) (s : string) : string :=
  match s with
  | EmptyString => ""
  | String c s' => repr_char q c ++ repr_body q s'
  end.

(** [repr(s)] of a string: in single quotes, or in double quotes when [s]
    has a single quote and no double one; the backslash, the quote in use
    and the control characters are escaped.  Characters outside ASCII are
    kept as they are, which is what [repr] does with the printable ones. *)
Definition py_repr (s : string) : string :=
  let has c := existsb (Ascii.eqb c) (list_ascii_of_string s) in
  let q := if has "'"%char && negb (has double_quote)
           then double_quote else "'"%char in
  String q (repr_body q s ++ String q "").

Definition no_match (date : string) : exn :=
  Exn ValueError
    ("time data " ++ py_repr date ++ " does not match format '%Y-%m-%d'").

(** [datetime.strptime(date, '%Y-%m-%d')], as year, month and day *)
Definition strptime_ymd (date : string) : result (Z * Z * Z) :=
  match parse_year date with
  | None => Raise (no_match date)
  | Some (y, r1) =>
  match parse_dash r1 with
  | None => Raise (no_match date)
  | Some r2 =>
  match parse_month r2 with
  | None => Raise (no_match date)
  | Some (m, r3) =>
  match parse_day r3 with
  | None => Raise (no_match date)
  | Some (d, rest) =>
      if negb (String.eqb rest "")
      then raise ValueError ("unconverted data remains: " ++ rest)
      else if (y <? 1)%Z
      then raise ValueError ("year " ++ NilZero.string_of_int (Z.to_int y)
                             ++ " is out of range")
      else if (days_in_month y m <? d)%Z
      then raise ValueError "day is out of range for month"
      else Ok (y, m, d)
  end end end end.

(** [datetime.strptime(date, '%Y-%m-%d').strftime('%A')] *)
Definition day_name_of (date : string) : result string :=
  ymd <- strptime_ymd date ;;
  let '(y, m, d) := ymd in
  Ok (nth (Z.to_nat (weekday y m d)) day_names "").

(** ** A reference [str.title] for ASCII text

    On text made of ASCII characters [str.title] upper-cases a letter that
    follows a non-letter and lower-cases one that follows a letter.  It is
    used to run the program on concrete inputs. *)

Definition is_upper (c : ascii) : bool :=
  (65 <=? nat_of_ascii c)%nat && (nat_of_ascii c <=? 90)%nat.

Definition is_lower (c : ascii) : bool :=
  (97 <=? nat_of_ascii c)%nat && (nat_of_ascii c <=? 122)%nat.

Definition to_upper (c : ascii) : ascii :=
  if is_lower c then ascii_of_nat (nat_of_ascii c - 32) else c.

Definition to_lower (c : ascii) : ascii :=
  if is_upper c then ascii_of_nat (nat_of_ascii c + 32) else c.

Fixpoint title_from (previous_is_cased : bool) (s : string) : string :=
  match s with
  | EmptyString => ""
  | String c s' =>
      String (if previous_is_cased then to_lower c else to_upper c)
             (title_from (is_upper c || is_lower c) s')
  end.

Definition ascii_title (s : string) : string := title_from false s.

(** A stand-in for [str] of a list or dict where none is printed. *)
Definition no_container (_ : json) : string := "".

(** ** The program *)

Section WeatherCLI.

(** Two Python built-ins are left as parameters: their definitions lie in
    the interpreter's Unicode tables, not in the program.  [str_title] is
    [str.title]; [container_str] is [str] of a list or dict. *)
Variable str_title : string -> string.
Variable container_str : json -> string.

(** [str(v)], which is what an f-string field [{v}] prints *)
Definition py_str (v : json) : string :=
  match v with
  | JNull => "None"
  | JBool true => "True"
  | JBool false => "False"
  | JNum n => number_str n
  | JStr s => s
  | _ => container_str v
  end.

(** [v.title()] *)
Definition title (v : json) : result string :=
  match v with
  | JStr s => Ok (str_title s)
  | _ => no_attribute v "title"
  end.

(** *** The adapter *)

Record WeatherCLI := { api_key : option string; base_url : string }.

(** [not k] for an optional string: [None] and [''] are falsy *)
Definition falsy (k : option string) : bool :=
  match k with
  | None => true
  | Some s => String.eqb s ""
  end.

(** [a or b] *)
Definition py_or (a b : option string) : option string :=
  if falsy a then b else a.

Definition demo_warning : list string :=
  ["⚠️  Warning: No API key provided. Using demo mode with sample data.";
   "   To use real data, get a free API key from https://openweathermap.org/api";
   "   Then set OPENWEATHER_API_KEY environment variable or use --api-key option"].

(** [WeatherCLI.__init__]: [getenv] is [os.getenv('OPENWEATHER_API_KEY')];
    the second component is what the constructor prints. *)
Definition __init__ (arg_key getenv : option string)
  : WeatherCLI * list string :=
  let self := {| api_key := py_or arg_key getenv;
                 base_url := "http://api.openweathermap.org/data/2.5" |} in
  (self, if falsy (api_key self) then demo_warning else []).

Definition key_param (self : WeatherCLI) : json :=
  match api_key self with
  | Some k => JStr k
  | None => JNull
  end.

(** One [requests.get(url, params=params, timeout=timeout)] *)
Record request := {
  req_url : string;
  req_params : list (string * json);
  req_timeout : Z
}.

(** What the program uses of a response: [raise_for_status()] and
    [json()], each of which may raise. *)
Record response := {
  raise_for_status : result unit;
  response_json : result json
}.

(** The network: what [requests.get] does with a request. *)
Definition network := request -> result response.

Definition _get_demo_weather (city : string) : json :=
  JDict [
    ("name", JStr (str_title city));
    ("main", JDict [
       ("temp", JNum (PyFloat "22.5"));
       ("feels_like", JNum (PyFloat "24.1"));
       ("humidity", JNum (PyInt 65));
       ("pressure", JNum (PyInt 1013))]);
    ("weather", JList [JDict [
       ("main", JStr "Clear");
       ("description", JStr "clear sky");
       ("icon", JStr "01d")]]);
    ("wind", JDict [
       ("speed", JNum (PyFloat "3.2"));
       ("deg", JNum (PyInt 180))]);
    ("visibility", JNum (PyInt 10000));
    ("sys", JDict [("country", JStr "DEMO")]);
    ("demo", JBool true)].

Definition _get_demo_forecast (city : string) : json :=
  JDict [
    ("city", JDict [
       ("name", JStr (str_title city));
       ("country", JStr "DEMO")]);
    ("list", JList [
       JDict [
         ("dt", JNum (PyInt 1695398400));
         ("main", JDict [
            ("temp", JNum (PyFloat "25.0"));
            ("humidity", JNum (PyInt 60))]);
         ("weather", JList [JDict [
            ("main", JStr "Sunny");
            ("description", JStr "sunny")]]);
         ("dt_txt", JStr "2024-09-22 12:00:00")];
       JDict [
         ("dt", JNum (PyInt 1695484800));
         ("main", JDict [
            ("temp", JNum (PyFloat "23.0"));
            ("humidity", JNum (PyInt 70))]);
         ("weather", JList [JDict [
            ("main", JStr "Clouds");
            ("description", JStr "partly cloudy")]]);
         ("dt_txt", JStr "2024-09-23 12:00:00")]]);
    ("demo", JBool true)].

Definition api_error (e : exn) : json :=
  JDict [("error", JStr ("API request failed: " ++ exn_str e))].

(** The [try] block shared by the two fetches: the request, the status
    check and the decoding, with [RequestException] turned into an error
    dict. *)
Definition attempt (net : network) (req : request) : result json :=
  try_except
    (response <- net req ;;
     _ <- raise_for_status response ;;
     response_json response)
    is_RequestException
    (fun e => Ok (api_error e)).

(** Both fetches return their result and the requests they issued. *)
Definition get_current_weather (self : WeatherCLI) (net : network)
    (city units : string) : result json * list request :=
  if falsy (api_key self) then (Ok (_get_demo_weather city), [])
  else
    let url := base_url self ++ "/weather" in
    let params := [("q", JStr city);
                   ("appid", key_param self);
                   ("units", JStr units)] in
    let req := {| req_url := url; req_params := params; req_timeout := 10 |} in
    (attempt net req, [req]).

Definition get_forecast (self : WeatherCLI) (net : network)
    (city units : string) (days : Z) : result json * list request :=
  if falsy (api_key self) then (Ok (_get_demo_forecast city), [])
  else
    let url := base_url self ++ "/forecast" in
    let params := [("q", JStr city);
                   ("appid", key_param self);
                   ("units", JStr units);
                   ("cnt", JNum (PyInt (days * 8)))] in
    let req := {| req_url := url; req_params := params; req_timeout := 10 |} in
    (attempt net req, [req]).

(** *** The formatter *)

Definition temp_unit_of (units : string) : string :=
  if String.eqb units "metric" then "°C" else "°F".

Definition speed_unit_of (units : string) : string :=
  if String.eqb units "metric" then "m/s" else "mph".

Definition demo_note_of (demo : json) : string :=
  if truthy demo then nl ++ "🔧 DEMO MODE - Using sample data" else "".

Definition error_line (e : json) : string := "❌ Error: " ++ py_str e.

(** [data[k1][k2]] *)
Definition getitem2 (data : json) (k1 k2 : string) : result json :=
  x <- getitem data k1 ;; getitem x k2.

(** [data['weather'][0]['description'].title()] *)
Definition description_title (data : json) : result string :=
  weather <- getitem data "weather" ;;
  first <- getitem0 weather ;;
  description <- getitem first "description" ;;
  title description.

(** The text of the current-weather report, with the two unit labels and
    the fields in the order the f-string evaluates them. *)
Definition current_report (data : json) (temp_unit speed_unit demo_note : string)
  : result string :=
  name <- getitem data "name" ;;
  sys <- py_get data "sys" (JDict []) ;;
  country <- py_get sys "country" (JStr "N/A") ;;
  temp <- getitem2 data "main" "temp" ;;
  feels_like <- getitem2 data "main" "feels_like" ;;
  condition <- description_title data ;;
  humidity <- getitem2 data "main" "humidity" ;;
  pressure <- getitem2 data "main" "pressure" ;;
  speed <- getitem2 data "wind" "speed" ;;
  visibility <- py_get data "visibility" (JStr "N/A") ;;
  Ok (nl
      ++ "🌤️  Current Weather for " ++ py_str name ++ ", " ++ py_str country ++ nl
      ++ str_repeat "=" 50 ++ nl
      ++ "🌡️  Temperature: " ++ py_str temp ++ temp_unit
      ++ " (feels like " ++ py_str feels_like ++ temp_unit ++ ")" ++ nl
      ++ "☁️  Condition: " ++ condition ++ nl
      ++ "💧 Humidity: " ++ py_str humidity ++ "%" ++ nl
      ++ "🔽 Pressure: " ++ py_str pressure ++ " hPa" ++ nl
      ++ "💨 Wind: " ++ py_str speed ++ " " ++ speed_unit ++ nl
      ++ "👁️  Visibility: " ++ py_str visibility ++ " meters" ++ demo_note ++ nl).

Definition format_current_weather (data : json) (units : string)
  : result string :=
  is_error <- py_in "error" data ;;
  if is_error then
    e <- getitem data "error" ;;
    Ok (error_line e)
  else
    let temp_unit := temp_unit_of units in
    let speed_unit := speed_unit_of units in
    demo <- py_get data "demo" JNull ;;
    let demo_note := demo_note_of demo in
    current_report data temp_unit speed_unit demo_note.

(** [daily_forecasts]: a dict from dates to lists of entries, in insertion
    order. *)
Definition daily := list (string * list json).

(** [d[k].append(x)] when [k] is a key of [d] *)
Fixpoint dict_append (k : string) (x : json) (d : daily) : daily :=
  match d with
  | [] => []
  | (k', b) :: d' =>
      if String.eqb k k' then (k', (b ++ [x])%list) :: d'
      else (k', b) :: dict_append k x d'
  end.

(** A [for] loop over [xs] that threads the value the body updates. *)
Fixpoint for_each {S X} (body : S -> X -> result S) (xs : list X) (s : S)
  : result S :=
  match xs with
  | [] => Ok s
  | x :: xs' => s' <- body s x ;; for_each body xs' s'
  end.

(** [item['dt_txt'].split(' ')[0]] *)
Definition entry_date (item : json) : result string :=
  dt_txt <- getitem item "dt_txt" ;;
  split_first dt_txt.

(** The body of the grouping loop *)
Definition group_step (daily_forecasts : daily) (item : json) : result daily :=
  date <- entry_date item ;;
  let daily_forecasts :=
    if negb (dict_has date daily_forecasts)
    then (daily_forecasts ++ [(date, [])])%list
    else daily_forecasts in
  Ok (dict_append date item daily_forecasts).

(** The items of [v[:n]] *)
Definition slice_items (n : nat) (v : json) : result (list json) :=
  match v with
  | JList l => Ok (firstn n l)
  | JStr s =>
      Ok (map (fun c => JStr (String c "")) (firstn n (list_ascii_of_string s)))
  | JDict _ => raise TypeError "unhashable type: 'slice'"
  | _ => raise TypeError (quote (type_name v) ++ " object is not subscriptable")
  end.

(** ['12:00:00' in f['dt_txt']] *)
Definition is_midday (f : json) : result bool :=
  dt_txt <- getitem f "dt_txt" ;;
  py_in "12:00:00" dt_txt.

(** [next((f for f in forecasts if ...), default)] *)
Fixpoint next_midday (forecasts : list json) (default : json) : result json :=
  match forecasts with
  | [] => Ok default
  | f :: rest =>
      hit <- is_midday f ;;
      if hit then Ok f else next_midday rest default
  end.

(** The representative of a bucket; [forecasts[0]], the default, is
    evaluated before the search starts. *)
Definition midday_of (forecasts : list json) : result json :=
  match forecasts with
  | [] => raise IndexError "list index out of range"
  | first :: _ => next_midday forecasts first
  end.

(** The text of a day-block, from the bucket's date and representative *)
Definition block_text (temp_unit date : string) (midday_forecast : json)
  : result string :=
  day_name <- day_name_of date ;;
  temp <- getitem2 midday_forecast "main" "temp" ;;
  condition <- description_title midday_forecast ;;
  humidity <- getitem2 midday_forecast "main" "humidity" ;;
  Ok (nl
      ++ "📆 " ++ day_name ++ ", " ++ date ++ nl
      ++ "   🌡️  " ++ py_str temp ++ temp_unit ++ nl
      ++ "   ☁️  " ++ condition ++ nl
      ++ "   💧 " ++ py_str humidity ++ "% humidity" ++ nl).

(** The text one bucket adds to the output *)
Definition day_block (temp_unit : string) (bucket : string * list json)
  : result string :=
  let '(date, forecasts) := bucket in
  midday_forecast <- midday_of forecasts ;;
  block_text temp_unit date midday_forecast.

(** The body of the rendering loop: [output += block] *)
Definition render_step (temp_unit : string) (output : string)
    (bucket : string * list json) : result string :=
  block <- day_block temp_unit bucket ;;
  Ok (output ++ block).

Definition forecast_header (data : json) (demo_note : string) : result string :=
  name <- getitem2 data "city" "name" ;;
  city <- getitem data "city" ;;
  country <- py_get city "country" (JStr "N/A") ;;
  Ok (nl
      ++ "📅 5-Day Weather Forecast for " ++ py_str name ++ ", "
      ++ py_str country ++ nl
      ++ str_repeat "=" 60 ++ demo_note ++ nl).

(** The grouping loop over [data['list'][:40]] *)
Definition group_by_date (data : json) : result daily :=
  entries <- getitem data "list" ;;
  items <- slice_items 40 entries ;;
  for_each group_step items [].

Definition format_forecast (data : json) (units : string) : result string :=
  is_error <- py_in "error" data ;;
  if is_error then
    e <- getitem data "error" ;;
    Ok (error_line e)
  else
    let temp_unit := temp_unit_of units in
    demo <- py_get data "demo" JNull ;;
    let demo_note := demo_note_of demo in
    output <- forecast_header data demo_note ;;
    daily_forecasts <- group_by_date data ;;
    for_each (render_step temp_unit) (firstn 5 daily_forecasts) output.

(** *** The command *)

(** What [parser.parse_args()] returns *)
Record Args := {
  args_city : string;
  args_forecast : bool;
  args_units : string;
  args_api_key : option string
}.

(** Where the run is when the operator's interrupt reaches it. *)
Inductive phase :=
| Startup      (* before the [try] block: parsing and construction *)
| Fetching     (* in the fetch, before its request *)
| Formatting
| Printing.

Definition phase_eqb (p q : phase) : bool :=
  match p, q with
  | Startup, Startup | Fetching, Fetching
  | Formatting, Formatting | Printing, Printing => true
  | _, _ => false
  end.

(** The world a run meets: the environment variable, the network, and the
    phase in which an interrupt arrives, if one does. *)
Record world := {
  getenv_key : option string;
  net : network;
  interrupt : option phase
}.

(** A step of the run in phase [p]: an interrupt that arrives there raises
    [KeyboardInterrupt] in place of the step's result. *)
Definition during {A} (w : world) (p : phase) (step : result A) : result A :=
  match interrupt w with
  | Some q => if phase_eqb p q then raise KeyboardInterrupt "" else step
  | None => step
  end.

(** How the process ends: [main] returns (status 0), [sys.exit(n)], or an
    exception reaches the interpreter, which prints its traceback. *)
Inductive ending :=
| Returned
| Exited (status : Z)
| Uncaught (e : exn).

Record run := {
  stdout : list string;
  requests : list request;
  ended : ending
}.

(** A fetch in phase [Fetching]: an interrupt that arrives there comes
    before the request is made, so the fetch raises [KeyboardInterrupt] and
    issues nothing.  An interrupt that arrives while the request is under
    way is the network raising [KeyboardInterrupt]. *)
Definition fetching {A} (w : world) (fetch : result A * list request)
  : result A * list request :=
  match interrupt w with
  | Some Fetching => (raise KeyboardInterrupt "", [])
  | _ => fetch
  end.

(** The [try] block of [main]: the output it hands to [print], and the
    requests issued.  [print] is taken to write the text it is given. *)
Definition main_body (w : world) (weather : WeatherCLI) (args : Args)
  : result string * list request :=
  if args_forecast args then
    let fetched := fetching w (get_forecast weather (net w) (args_city args)
                                 (args_units args) 5) in
    (data <- fst fetched ;;
     output <- during w Formatting (format_forecast data (args_units args)) ;;
     during w Printing (Ok output),
     snd fetched)
  else
    let fetched := fetching w (get_current_weather weather (net w)
                                 (args_city args) (args_units args)) in
    (data <- fst fetched ;;
     output <- during w Formatting
                 (format_current_weather data (args_units args)) ;;
     during w Printing (Ok output),
     snd fetched).

Definition main (w : world) (args : Args) : run :=
  match during w Startup
          (Ok (__init__ (args_api_key args) (getenv_key w))) with
  | Raise e => {| stdout := []; requests := []; ended := Uncaught e |}
  | Ok (weather, warned) =>
      let '(body, reqs) := main_body w weather args in
      match body with
      | Ok output =>
          {| stdout := (warned ++ [output])%list; requests := reqs;
             ended := Returned |}
      | Raise e =>
          if is_KeyboardInterrupt (exn_cls e) then
            {| stdout := (warned ++ [(nl ++ "👋 Goodbye!")%string])%list; requests := reqs;
               ended := Exited 0 |}
          else if is_Exception (exn_cls e) then
            {| stdout := (warned ++ [("❌ Unexpected error: " ++ exn_str e)%string])%list;
               requests := reqs; ended := Exited 1 |}
          else
            {| stdout := warned; requests := reqs; ended := Uncaught e |}
      end
  end.

(** ** Notions the properties are stated with *)

(** The text after the first space: the time of a timestamp
    ["YYYY-MM-DD HH:MM:SS"]. *)
Fixpoint after_space (s : string) : string :=
  match s with
  | EmptyString => ""
  | String c s' => if Ascii.eqb c " " then s' else after_space s'
  end.

Fixpoint has_char (c : ascii) (s : string) : bool :=
  match s with
  | EmptyString => false
  | String c' s' => Ascii.eqb c c' || has_char c s'
  end.

(** A timestamp of the provider's shape: a date without a colon, a space,
    and a time of eight characters. *)
Definition timestamp_shaped (s : string) : bool :=
  has_char " " s
  && negb (has_char ":" (before_space s))
  && (String.length (after_space s) =? 8)%nat.

(** The timestamp text of an entry, [""] where it has none. *)
Definition dt_txt_of (f : json) : string :=
  match getitem f "dt_txt" with
  | Ok (JStr s) => s
  | _ => ""
  end.

Definition date_of (f : json) : string := before_space (dt_txt_of f).
Definition time_of (f : json) : string := after_space (dt_txt_of f).

(** An entry the grouping loop accepts: its [dt_txt] is a string. *)
Definition has_timestamp (f : json) : bool :=
  match getitem f "dt_txt" with
  | Ok (JStr _) => true
  | _ => false
  end.

(** The representative as the specification words it: the first entry
    whose time is exactly 12:00:00, else the first entry. *)
Definition spec_representative (forecasts : list json) : option json :=
  match find (fun f => String.eqb (time_of f) "12:00:00") forecasts with
  | Some f => Some f
  | None => hd_error forecasts
  end.

(** The representative by the test the code makes: the first entry whose
    timestamp text contains 12:00:00, else the first entry. *)
Definition first_containing_midday (forecasts : list json) : option json :=
  match find (fun f => str_contains "12:00:00" (dt_txt_of f)) forecasts with
  | Some f => Some f
  | None => hd_error forecasts
  end.

(** The distinct keys of a list, each at its first occurrence. *)
Fixpoint encounter_order (ks : list string) : list string :=
  match ks with
  | [] => []
  | k :: ks' =>
      k :: filter (fun k' => negb (String.eqb k k')) (encounter_order ks')
  end.

Definition on_date (k : string) (f : json) : bool := String.eqb (date_of f) k.

(** The buckets as the specification words them: one per distinct date, in
    encounter order, each holding that date's entries in their order. *)
Definition spec_buckets (items : list json) : daily :=
  map (fun k => (k, filter (on_date k) items))
      (encounter_order (map date_of items)).

(** An entry a day-block can be rendered from: a timestamp whose date
    [strptime] accepts, and the three fields the block prints. *)
Definition renderable (f : json) : bool :=
  has_timestamp f
  && is_ok (day_name_of (date_of f))
  && is_ok (getitem2 f "main" "temp")
  && is_ok (description_title f)
  && is_ok (getitem2 f "main" "humidity").

(** The entries of a bundle: [data['list']] when it is a list. *)
Definition entries_of (data : json) : list json :=
  match getitem data "list" with
  | Ok (JList l) => l
  | _ => []
  end.

(** A bundle the formatter renders without raising: a dict without an
    [error] key, whose header fields are present, whose [list] is a list and
    whose first 40 entries are renderable. *)
Definition bundle_ok (data : json) : bool :=
  match data with
  | JDict d =>
      negb (dict_has "error" d)
      && is_ok (forecast_header data "")
      && match dict_lookup "list" d with
         | Some (JList l) => forallb renderable (firstn 40 l)
         | _ => false
         end
  | _ => false
  end.

(** The first exception one attempt meets, in the order the [try] block
    runs: the request, the status check, the decoding. *)
Definition attempt_fault (o : result response) : option exn :=
  match o with
  | Raise e => Some e
  | Ok r =>
      match raise_for_status r with
      | Raise e => Some e
      | Ok _ =>
          match response_json r with
          | Raise e => Some e
          | Ok _ => None
          end
      end
  end.

(** An error value: a dict whose [error] key holds the message. *)
Definition is_error_value (data : json) (msg : string) : Prop :=
  exists d, data = JDict d /\ dict_lookup "error" d = Some (JStr msg).

(** The line [main] prints on an interrupt. *)
Definition farewell : string := nl ++ "👋 Goodbye!".

(** The concatenation of a list of texts. *)
Definition str_concat (l : list string) : string :=
  fold_right String.append "" l.

(** The results of [f] on each element, or the first exception. *)
Fixpoint collect {X Y} (f : X -> result Y) (xs : list X) : result (list Y) :=
  match xs with
  | [] => Ok []
  | x :: xs' => y <- f x ;; ys <- collect f xs' ;; Ok (y :: ys)
  end.

(** A current-weather report cut at its unit labels, and put together with
    labels of one's choice. *)
Definition fill_current (p : string * string * string * string)
    (temp_unit speed_unit : string) : string :=
  let '(a, b, c, d) := p in
  a ++ temp_unit ++ b ++ temp_unit ++ c ++ speed_unit ++ d.

(** A forecast cut the same way: the header, and each day-block around its
    temperature label. *)
Definition fill_block (temp_unit : string) (p : string * string) : string :=
  fst p ++ temp_unit ++ snd p.

Definition fill_forecast (p : string * list (string * string))
    (temp_unit : string) : string :=
  fst p ++ str_concat (map (fill_block temp_unit) (snd p)).

(** A day-block cut at its temperature label: the text the rendering loop
    adds for [bucket] before the label and after it. *)
Definition is_block_cut (bucket : string * list json) (cut : string * string)
  : Prop :=
  exists rep day_name temp condition humidity,
    midday_of (snd bucket) = Ok rep
    /\ day_name_of (fst bucket) = Ok day_name
    /\ getitem2 rep "main" "temp" = Ok temp
    /\ description_title rep = Ok condition
    /\ getitem2 rep "main" "humidity" = Ok humidity
    /\ fst cut = nl ++ "📆 " ++ day_name ++ ", " ++ fst bucket ++ nl
                 ++ "   🌡️  " ++ py_str temp
    /\ snd cut = nl ++ "   ☁️  " ++ condition ++ nl
                 ++ "   💧 " ++ py_str humidity ++ "% humidity" ++ nl.

(** The day-block of [bucket]: its cut with the label in the gap. *)
Definition is_day_block (temp_unit : string) (bucket : string * list json)
    (block : string) : Prop :=
  exists cut,
    is_block_cut bucket cut /\ block = fst cut ++ temp_unit ++ snd cut.

(** The header of the forecast of [data]. *)
Definition is_forecast_header (data : json) (header : string) : Prop :=
  exists demo name city country,
    py_get data "demo" JNull = Ok demo
    /\ getitem2 data "city" "name" = Ok name
    /\ getitem data "city" = Ok city
    /\ py_get city "country" (JStr "N/A") = Ok country
    /\ header = nl ++ "📅 5-Day Weather Forecast for " ++ py_str name ++ ", "
                ++ py_str country ++ nl
                ++ str_repeat "=" 60
                ++ (if truthy demo
                    then nl ++ "🔧 DEMO MODE - Using sample data" else "")
                ++ nl.

(** The current-weather report of [data] cut at its three labels. *)
Definition is_current_cut (data : json)
    (cut : string * string * string * string) : Prop :=
  exists demo name sys country temp feels_like condition humidity pressure
         speed visibility,
    py_get data "demo" JNull = Ok demo
    /\ getitem data "name" = Ok name
    /\ py_get data "sys" (JDict []) = Ok sys
    /\ py_get sys "country" (JStr "N/A") = Ok country
    /\ getitem2 data "main" "temp" = Ok temp
    /\ getitem2 data "main" "feels_like" = Ok feels_like
    /\ description_title data = Ok condition
    /\ getitem2 data "main" "humidity" = Ok humidity
    /\ getitem2 data "main" "pressure" = Ok pressure
    /\ getitem2 data "wind" "speed" = Ok speed
    /\ py_get data "visibility" (JStr "N/A") = Ok visibility
    /\ cut = (nl ++ "🌤️  Current Weather for " ++ py_str name ++ ", "
              ++ py_str country ++ nl ++ str_repeat "=" 50 ++ nl
              ++ "🌡️  Temperature: " ++ py_str temp,
              " (feels like " ++ py_str feels_like,
              ")" ++ nl
              ++ "☁️  Condition: " ++ condition ++ nl
              ++ "💧 Humidity: " ++ py_str humidity ++ "%" ++ nl
              ++ "🔽 Pressure: " ++ py_str pressure ++ " hPa" ++ nl
              ++ "💨 Wind: " ++ py_str speed ++ " ",
              nl ++ "👁️  Visibility: " ++ py_str visibility ++ " meters"
              ++ (if truthy demo
                  then nl ++ "🔧 DEMO MODE - Using sample data" else "")
              ++ nl).

(** The number of places of [s] at which [p] starts. *)
Fixpoint str_count (p s : string) : nat :=
  match s with
  | EmptyString => 0
  | String _ s' => (if prefix p s then 1 else 0) + str_count p s'
  end.

(** *** Sample inputs *)

Definition forecast_entry (dt_txt temp : string) (humidity : Z)
    (description : string) : json :=
  JDict [("main", JDict [("temp", JNum (PyFloat temp));
                         ("humidity", JNum (PyInt humidity))]);
         ("weather", JList [JDict [("description", JStr description)]]);
         ("dt_txt", JStr dt_txt)].

Definition bundle (entries : list json) : json :=
  JDict [("city", JDict [("name", JStr "Paris"); ("country", JStr "FR")]);
         ("list", JList entries)].

(** A day without an entry at 12:00:00, one of whose timestamps has a
    fraction of a second. *)
Definition morning_entry : json :=
  forecast_entry "2024-09-22 09:00:00" "18.2" 80 "light rain".

Definition fraction_entry : json :=
  forecast_entry "2024-09-22 12:00:00.500" "21.0" 55 "clear sky".

Definition noon_entry : json :=
  forecast_entry "2024-09-22 12:00:00" "21.4" 54 "clear sky".

(** Seven dates, one entry each. *)
Definition week_entries : list json :=
  [forecast_entry "2024-09-22 12:00:00" "25.0" 60 "sunny";
   forecast_entry "2024-09-23 12:00:00" "23.0" 70 "partly cloudy";
   forecast_entry "2024-09-24 12:00:00" "22.1" 64 "light rain";
   forecast_entry "2024-09-25 12:00:00" "19.4" 81 "overcast clouds";
   forecast_entry "2024-09-26 12:00:00" "20.3" 77 "clear sky";
   forecast_entry "2024-09-27 12:00:00" "21.8" 69 "few clouds";
   forecast_entry "2024-09-28 12:00:00" "24.6" 58 "clear sky"].

(** Seven dates again, the first of them with forty entries. *)
Definition crowded_entries : list json :=
  (repeat (forecast_entry "2024-09-22 09:00:00" "18.2" 80 "light rain") 40
   ++ tl week_entries)%list.

Definition paris_args : Args :=
  {| args_city := "paris"; args_forecast := false; args_units := "metric";
     args_api_key := None |}.

Definition live_client : WeatherCLI :=
  {| api_key := Some "secret";
     base_url := "http://api.openweathermap.org/data/2.5" |}.

(** A network on which every request times out. *)
Definition timeout_network : network :=
  fun _ => raise RequestException "Read timed out. (read timeout=10)".

Definition world_interrupted (p : phase) : world :=
  {| getenv_key := None; net := timeout_network; interrupt := Some p |}.

(** A network on which the operator's interrupt arrives during the
    request. *)
Definition interrupting_network : network :=
  fun _ => raise KeyboardInterrupt "".

(** A network that answers every request with status 200 and [body]. *)
Definition answering_network (body : json) : network :=
  fun _ => Ok {| raise_for_status := Ok tt; response_json := Ok body |}.

Definition quiet_world (n : network) : world :=
  {| getenv_key := None; net := n; interrupt := None |}.

Definition london_forecast_args : Args :=
  {| args_city := "London"; args_forecast := true; args_units := "imperial";
     args_api_key := Some "secret" |}.

Definition london_args : Args :=
  {| args_city := "London"; args_forecast := false; args_units := "metric";
     args_api_key := Some "secret" |}.

(** A current-weather body without a [name]. *)
Definition nameless_body : json :=
  JDict [("main", JDict [("temp", JNum (PyFloat "22.5"))])].

(** Six dates.  The first has an entry at 09:00:00 that lacks the fields a
    block prints and one at 12:00:00 that has them; the sixth is not a
    calendar date. *)
Definition sparse_entries : list json :=
  [JDict [("dt_txt", JStr "2024-09-22 09:00:00")];
   forecast_entry "2024-09-22 12:00:00" "25.0" 60 "sunny";
   forecast_entry "2024-09-23 12:00:00" "23.0" 70 "partly cloudy";
   forecast_entry "2024-09-24 12:00:00" "22.1" 64 "light rain";
   forecast_entry "2024-09-25 12:00:00" "19.4" 81 "overcast clouds";
   forecast_entry "2024-09-26 12:00:00" "20.3" 77 "clear sky";
   forecast_entry "2024-02-30 12:00:00" "21.8" 69 "few clouds"].

(** ** Properties *)

(** A step of the code raised [e]: so does the whole, for every label. *)
Ltac raise_case e := exists (Raise e); intros; reflexivity.
Ltac raise_cut e :=
  exists (Raise e); split; [intros; reflexivity | discriminate].

(** *** Strings *)

Lemma str_app_assoc (a b c : string) : (a ++ b) ++ c = a ++ b ++ c.
Proof.
  induction a as [|x a IH]; simpl; [reflexivity | now rewrite IH].
Qed.

Lemma str_app_nil_r (a : string) : a ++ "" = a.
Proof.
  induction a as [|x a IH]; simpl; [reflexivity | now rewrite IH].
Qed.

Lemma prefix_app (p s : string) : prefix p (p ++ s) = true.
Proof.
  induction p as [|x p IH]; simpl.
  - destruct s; reflexivity.
  - destruct (ascii_dec x x) as [_|N]; [exact IH | now elim N].
Qed.

Lemma str_contains_at (p s : string) : str_contains p (p ++ s) = true.
Proof.
  pose proof (prefix_app p s) as H.
  destruct (p ++ s) as [|c r]; cbn [str_contains]; [exact H | now rewrite H].
Qed.

Lemma str_contains_app (p a s : string) :
  str_contains p s = true -> str_contains p (a ++ s) = true.
Proof.
  intros H. induction a as [|x a IH]; [exact H|].
  cbn [append str_contains]. rewrite IH. apply orb_true_r.
Qed.

Lemma str_contains_suffix (p a : string) : str_contains p (a ++ p) = true.
Proof.
  apply str_contains_app. rewrite <- (str_app_nil_r p) at 2.
  apply str_contains_at.
Qed.

(** *** Error values *)

(** C5.  Given an error value, a dict whose [error] key holds the message,
    both formatters return, for every unit system, exactly the one error
    line: the fixed prefix followed by the message.  Nothing else of the
    input is read, whatever other keys it has, and the message occurs in
    the line. *)
Theorem format_error_value (data : json) (msg units : string) :
  is_error_value data msg ->
  format_current_weather data units = Ok ("❌ Error: " ++ msg)
  /\ format_forecast data units = Ok ("❌ Error: " ++ msg)
  /\ str_contains msg ("❌ Error: " ++ msg) = true.
Proof.
  intros (d & -> & Hd).
  assert (Hin : py_in "error" (JDict d) = Ok true).
  { unfold py_in, dict_has. now rewrite Hd. }
  assert (Hget : getitem (JDict d) "error" = Ok (JStr msg)).
  { unfold getitem. now rewrite Hd. }
  repeat split.
  - unfold format_current_weather. rewrite Hin. cbn [bind].
    rewrite Hget. reflexivity.
  - unfold format_forecast. rewrite Hin. cbn [bind].
    rewrite Hget. reflexivity.
  - apply str_contains_suffix.
Qed.

(** *** Demo mode *)

(** C6.  Without a credential both fetches return the canned record for the
    city and issue no request: the result is the same on every call,
    whatever the network, the unit system or the day count.  The record
    carries [demo = True] and its name is the city title-cased. *)
Theorem demo_fetch_is_synthetic (self : WeatherCLI) (net : network)
    (city units : string) (days : Z) :
  falsy (api_key self) = true ->
  get_current_weather self net city units = (Ok (_get_demo_weather city), [])
  /\ get_forecast self net city units days = (Ok (_get_demo_forecast city), [])
  /\ getitem (_get_demo_weather city) "demo" = Ok (JBool true)
  /\ getitem (_get_demo_forecast city) "demo" = Ok (JBool true)
  /\ getitem (_get_demo_weather city) "name" = Ok (JStr (str_title city))
  /\ getitem2 (_get_demo_forecast city) "city" "name" = Ok (JStr (str_title city)).
Proof.
  intros H. unfold get_current_weather, get_forecast. rewrite H.
  repeat split; reflexivity.
Qed.

(** C10.  Without a credential the fetched record does not depend on the
    unit system: any two unit systems, metric and imperial among them, give
    the same result.  The report then prints the same numbers, 22.5, 24.1
    and 3.2, next to whichever labels the unit system selects. *)
Theorem demo_fetch_ignores_units (self : WeatherCLI) (net : network)
    (city units1 units2 : string) (days : Z) :
  falsy (api_key self) = true ->
  get_current_weather self net city units1
    = get_current_weather self net city units2
  /\ get_forecast self net city units1 days
    = get_forecast self net city units2 days
  /\ forall units,
      format_current_weather (_get_demo_weather city) units
      = Ok (nl
            ++ "🌤️  Current Weather for " ++ str_title city ++ ", DEMO" ++ nl
            ++ str_repeat "=" 50 ++ nl
            ++ "🌡️  Temperature: 22.5" ++ temp_unit_of units
            ++ " (feels like 24.1" ++ temp_unit_of units ++ ")" ++ nl
            ++ "☁️  Condition: " ++ str_title "clear sky" ++ nl
            ++ "💧 Humidity: 65%" ++ nl
            ++ "🔽 Pressure: 1013 hPa" ++ nl
            ++ "💨 Wind: 3.2 " ++ speed_unit_of units ++ nl
            ++ "👁️  Visibility: 10000 meters" ++ nl
            ++ "🔧 DEMO MODE - Using sample data" ++ nl).
Proof.
  intros H. unfold get_current_weather, get_forecast. rewrite H.
  repeat split; reflexivity.
Qed.

(** C9.  The canned forecast has exactly two entries, dated 2024-09-22 and
    2024-09-23, both at 12:00:00.  The grouping makes one bucket of each,
    and the formatted forecast is the header, which announces a 5-day
    forecast, followed by exactly two day-blocks, Sunday's and Monday's,
    and nothing else. *)
Theorem demo_forecast_two_blocks (city units : string) :
  exists first second,
    getitem (_get_demo_forecast city) "list" = Ok (JList [first; second])
    /\ dt_txt_of first = "2024-09-22 12:00:00"
    /\ dt_txt_of second = "2024-09-23 12:00:00"
    /\ group_by_date (_get_demo_forecast city)
        = Ok [("2024-09-22", [first]); ("2024-09-23", [second])]
    /\ exists header block1 block2,
        forecast_header (_get_demo_forecast city) (demo_note_of (JBool true))
          = Ok header
        /\ header
           = nl ++ "📅 5-Day Weather Forecast for " ++ str_title city
             ++ ", DEMO" ++ nl
             ++ str_repeat "=" 60 ++ nl
             ++ "🔧 DEMO MODE - Using sample data" ++ nl
        /\ str_contains "5-Day Weather Forecast" header = true
        /\ day_block (temp_unit_of units) ("2024-09-22", [first]) = Ok block1
        /\ block1
           = nl ++ "📆 Sunday, 2024-09-22" ++ nl
             ++ "   🌡️  25.0" ++ temp_unit_of units ++ nl
             ++ "   ☁️  " ++ str_title "sunny" ++ nl
             ++ "   💧 60% humidity" ++ nl
        /\ day_block (temp_unit_of units) ("2024-09-23", [second]) = Ok block2
        /\ block2
           = nl ++ "📆 Monday, 2024-09-23" ++ nl
             ++ "   🌡️  23.0" ++ temp_unit_of units ++ nl
             ++ "   ☁️  " ++ str_title "partly cloudy" ++ nl
             ++ "   💧 70% humidity" ++ nl
        /\ format_forecast (_get_demo_forecast city) units
            = Ok ((header ++ block1) ++ block2).
Proof.
  do 2 eexists. split; [reflexivity|].
  repeat (split; [reflexivity|]).
  do 3 eexists.
  repeat (split; [reflexivity|]).
  reflexivity.
Qed.

(** *** Live mode *)

Lemma attempt_spec (net : network) (req : request) :
  attempt net req =
  match attempt_fault (net req) with
  | Some e => if is_RequestException (exn_cls e) then Ok (api_error e) else Raise e
  | None =>
      match net req with
      | Ok response => response_json response
      | Raise e => Raise e
      end
  end.
Proof.
  unfold attempt, attempt_fault, try_except.
  destruct (net req) as [r|e]; cbn [bind]; [|reflexivity].
  destruct (raise_for_status r) as [[]|e]; cbn [bind]; [|reflexivity].
  destruct (response_json r) as [v|e]; reflexivity.
Qed.

Lemma attempt_no_fault (net : network) (req : request) :
  attempt_fault (net req) = None ->
  exists response v,
    net req = Ok response /\ response_json response = Ok v
    /\ attempt net req = Ok v.
Proof.
  intros H. rewrite attempt_spec, H. unfold attempt_fault in H.
  destruct (net req) as [r|e]; [|discriminate].
  destruct (raise_for_status r) as [[]|e]; [|discriminate].
  destruct (response_json r) as [v|e] eqn:J; [|discriminate].
  exists r, v. repeat split; assumption.
Qed.

(** C4, as the code has it.  With a credential each fetch makes a single
    attempt: exactly one request, with timeout 10.  When the request, the
    status check or the decoding raises a [RequestException] the fetch
    returns the error dict carrying ["API request failed: "] and the
    exception's text; when nothing is raised it returns the decoded body;
    an exception of any other class is not caught and reaches the caller
    unchanged. *)
Theorem live_fetch_single_attempt (self : WeatherCLI) (net : network)
    (city units : string) (days : Z) :
  falsy (api_key self) = false ->
  (exists req,
      snd (get_current_weather self net city units) = [req]
      /\ req_url req = base_url self ++ "/weather"
      /\ req_timeout req = 10%Z
      /\ match attempt_fault (net req) with
         | Some e =>
             fst (get_current_weather self net city units)
             = if is_RequestException (exn_cls e)
               then Ok (api_error e) else Raise e
         | None =>
             exists response v,
               net req = Ok response /\ response_json response = Ok v
               /\ fst (get_current_weather self net city units) = Ok v
         end)
  /\ (exists req,
      snd (get_forecast self net city units days) = [req]
      /\ req_url req = base_url self ++ "/forecast"
      /\ req_timeout req = 10%Z
      /\ dict_lookup "cnt" (req_params req) = Some (JNum (PyInt (days * 8)))
      /\ match attempt_fault (net req) with
         | Some e =>
             fst (get_forecast self net city units days)
             = if is_RequestException (exn_cls e)
               then Ok (api_error e) else Raise e
         | None =>
             exists response v,
               net req = Ok response /\ response_json response = Ok v
               /\ fst (get_forecast self net city units days) = Ok v
         end)
  /\ forall e,
      is_error_value (api_error e) ("API request failed: " ++ exn_str e).
Proof.
  intros Hkey. unfold get_current_weather, get_forecast.
  rewrite Hkey. cbn [fst snd].
  split; [|split].
  - eexists. split; [reflexivity|]. cbn [req_url req_timeout].
    do 2 (split; [reflexivity|]).
    match goal with |- context [attempt net ?r] =>
      pose proof (attempt_spec net r) as A;
      pose proof (attempt_no_fault net r) as B
    end.
    destruct (attempt_fault (net _)); [exact A | now apply B].
  - eexists. split; [reflexivity|]. cbn [req_url req_timeout req_params].
    do 3 (split; [reflexivity|]).
    match goal with |- context [attempt net ?r] =>
      pose proof (attempt_spec net r) as A;
      pose proof (attempt_no_fault net r) as B
    end.
    destruct (attempt_fault (net _)); [exact A | now apply B].
  - intros e. eexists. split; reflexivity.
Qed.

(** *** The command *)

Lemma main_after_startup (w : world) (args : Args) :
  interrupt w <> Some Startup ->
  main w args =
  let '(weather, warned) := __init__ (args_api_key args) (getenv_key w) in
  let '(body, reqs) := main_body w weather args in
  match body with
  | Ok output =>
      {| stdout := (warned ++ [output])%list; requests := reqs;
         ended := Returned |}
  | Raise e =>
      if is_KeyboardInterrupt (exn_cls e) then
        {| stdout := (warned ++ [farewell])%list; requests := reqs;
           ended := Exited 0 |}
      else if is_Exception (exn_cls e) then
        {| stdout := (warned ++ [("❌ Unexpected error: " ++ exn_str e)%string])%list;
           requests := reqs; ended := Exited 1 |}
      else
        {| stdout := warned; requests := reqs; ended := Uncaught e |}
  end.
Proof.
  intros H. unfold main, during.
  destruct (interrupt w) as [[]|]; try reflexivity. now elim H.
Qed.

(** With an interrupt on its way the [try] block never completes: it
    raises, either the interrupt or what an earlier step raised. *)
Lemma interrupted_body_raises (w : world) (weather : WeatherCLI) (args : Args)
    (p : phase) :
  interrupt w = Some p -> p <> Startup ->
  exists e, fst (main_body w weather args) = Raise e.
Proof.
  intros I N. unfold main_body, fetching, during. rewrite I.
  destruct (args_forecast args); cbn [fst];
    destruct p; try (now elim N); cbn [phase_eqb fst];
    try (eexists; reflexivity).
  - destruct (fst (get_forecast _ _ _ _ _)); cbn [bind]; eexists; reflexivity.
  - destruct (fst (get_forecast _ _ _ _ _)) as [data|]; cbn [bind];
      [|eexists; reflexivity].
    destruct (format_forecast data _); cbn [bind]; eexists; reflexivity.
  - destruct (fst (get_current_weather _ _ _ _)); cbn [bind];
      eexists; reflexivity.
  - destruct (fst (get_current_weather _ _ _ _)) as [data|]; cbn [bind];
      [|eexists; reflexivity].
    destruct (format_current_weather data _); cbn [bind];
      eexists; reflexivity.
Qed.

(** C8, as the code has it.  Once the run is inside the [try] block, that
    is unless the interrupt arrives during startup: a [KeyboardInterrupt]
    raised by the fetch, the formatting or the printing ends the run with
    the farewell line as the last thing printed and exit status 0; any
    exception of class [Exception] raised there ends it with the line
    ["Unexpected error: "] and the exception's text, and exit status 1; an
    interrupt that arrives while fetching always ends the run the first
    way, and one that arrives later does so unless an earlier step has
    already raised something else; and neither a [KeyboardInterrupt] nor an
    [Exception] ever reaches the interpreter, so no traceback is printed
    for them. *)
Theorem main_handles_try_block (w : world) (args : Args) :
  interrupt w <> Some Startup ->
  let body :=
    fst (main_body w (fst (__init__ (args_api_key args) (getenv_key w))) args) in
  let warned := snd (__init__ (args_api_key args) (getenv_key w)) in
  (forall e, body = Raise e -> is_KeyboardInterrupt (exn_cls e) = true ->
     stdout (main w args) = (warned ++ [farewell])%list
     /\ ended (main w args) = Exited 0)
  /\ (forall e, body = Raise e -> is_Exception (exn_cls e) = true ->
     stdout (main w args)
       = (warned ++ [("❌ Unexpected error: " ++ exn_str e)%string])%list
     /\ ended (main w args) = Exited 1)
  /\ (interrupt w = Some Fetching ->
     stdout (main w args) = (warned ++ [farewell])%list
     /\ ended (main w args) = Exited 0)
  /\ (forall p, interrupt w = Some p ->
     (stdout (main w args) = (warned ++ [farewell])%list
      /\ ended (main w args) = Exited 0)
     \/ exists e, body = Raise e /\ is_KeyboardInterrupt (exn_cls e) = false)
  /\ (forall e, ended (main w args) = Uncaught e ->
     is_KeyboardInterrupt (exn_cls e) = false
     /\ is_Exception (exn_cls e) = false).
Proof.
  intros H body warned. subst body warned.
  rewrite (@main_after_startup w args H).
  pose proof (fun p => @interrupted_body_raises w
                (fst (__init__ (args_api_key args) (getenv_key w))) args p) as B.
  destruct (__init__ (args_api_key args) (getenv_key w)) as [weather warned].
  cbn [fst snd] in *.
  assert (F : interrupt w = Some Fetching ->
              fst (main_body w weather args) = Raise (Exn KeyboardInterrupt "")).
  { intros I. unfold main_body, fetching. rewrite I.
    destruct (args_forecast args); reflexivity. }
  destruct (main_body w weather args) as [body reqs]. cbn [fst] in *.
  split; [|split; [|split; [|split]]].
  - intros e -> Ke. rewrite Ke. split; reflexivity.
  - intros e -> X.
    destruct (is_KeyboardInterrupt (exn_cls e)) eqn:Ke.
    + destruct e as [[] ?]; discriminate.
    + rewrite X. split; reflexivity.
  - intros I. rewrite (F I). split; reflexivity.
  - intros p I.
    assert (N : p <> Startup) by (intros ->; now elim H).
    destruct (B p I N) as [e ->].
    destruct (is_KeyboardInterrupt (exn_cls e)) eqn:Ke.
    + left. split; reflexivity.
    + right. now exists e.
  - intros e E. destruct body as [?|e']; [discriminate|].
    destruct (is_KeyboardInterrupt (exn_cls e')) eqn:Ke; [discriminate|].
    destruct (is_Exception (exn_cls e')) eqn:X; [discriminate|].
    cbn [ended] in E. injection E as ->. now split.
Qed.

(** *** Grouping *)

Lemma for_each_app {S X} (body : S -> X -> result S) (xs ys : list X) (s : S) :
  for_each body (xs ++ ys)%list s
  = (s' <- for_each body xs s ;; for_each body ys s').
Proof.
  revert s. induction xs as [|x xs IH]; intros s; [reflexivity|].
  cbn [app for_each]. destruct (body s x) as [s1|e]; cbn [bind];
    [apply IH | reflexivity].
Qed.

Lemma entry_date_ok (f : json) :
  has_timestamp f = true -> entry_date f = Ok (date_of f).
Proof.
  unfold has_timestamp, entry_date, date_of, dt_txt_of.
  destruct (getitem f "dt_txt") as [[]|]; try discriminate. reflexivity.
Qed.

Lemma entry_date_timestamp (f : json) (d : string) :
  entry_date f = Ok d -> has_timestamp f = true.
Proof.
  unfold has_timestamp, entry_date.
  destruct (getitem f "dt_txt") as [[]|]; try discriminate. reflexivity.
Qed.

Lemma group_loop_timestamps (items : list json) (acc out : daily) :
  for_each group_step items acc = Ok out ->
  forallb has_timestamp items = true.
Proof.
  revert acc. induction items as [|x xs IH]; intros acc H; [reflexivity|].
  cbn [for_each] in H. unfold group_step at 1 in H.
  destruct (entry_date x) as [d|e] eqn:E; [|discriminate].
  cbn [bind forallb] in *. rewrite (entry_date_timestamp _ E).
  exact (IH _ H).
Qed.

Lemma existsb_encounter_order (k : string) (ks : list string) :
  existsb (String.eqb k) (encounter_order ks) = existsb (String.eqb k) ks.
Proof.
  induction ks as [|a ks IH]; [reflexivity|].
  cbn [encounter_order existsb]. rewrite <- IH.
  destruct (String.eqb_spec k a) as [->|N]; [reflexivity|].
  cbn [orb]. clear IH.
  induction (encounter_order ks) as [|b l IHl]; [reflexivity|].
  cbn [filter existsb].
  destruct (String.eqb_spec a b) as [->|N']; cbn [negb existsb].
  - destruct (String.eqb_spec k b); [congruence | exact IHl].
  - now rewrite IHl.
Qed.

Lemma filter_idem_ne (a : string) (l : list string) :
  existsb (String.eqb a) l = false ->
  filter (fun k' => negb (String.eqb a k')) l = l.
Proof.
  induction l as [|b l IH]; [reflexivity|].
  cbn [existsb filter]. intros H. apply orb_false_iff in H as [H1 H2].
  rewrite H1. cbn [negb]. now rewrite IH.
Qed.

Lemma encounter_order_snoc (ks : list string) (k : string) :
  encounter_order (ks ++ [k])
  = if existsb (String.eqb k) ks then encounter_order ks
    else (encounter_order ks ++ [k])%list.
Proof.
  induction ks as [|a ks IH]; [reflexivity|].
  cbn [app encounter_order existsb]. rewrite IH.
  destruct (String.eqb_spec k a) as [->|N]; cbn [orb].
  - destruct (existsb (String.eqb a) ks); [reflexivity|].
    rewrite filter_app. cbn [filter]. rewrite String.eqb_refl. cbn [negb].
    now rewrite app_nil_r.
  - destruct (existsb (String.eqb k) ks); [reflexivity|].
    rewrite filter_app. cbn [filter].
    destruct (String.eqb_spec a k) as [E|_]; [now elim N|]. reflexivity.
Qed.

Lemma dict_has_map {V} (F : string -> V) (k : string) (ks : list string) :
  dict_has k (map (fun k' => (k', F k')) ks) = existsb (String.eqb k) ks.
Proof.
  unfold dict_has. induction ks as [|a ks IH]; [reflexivity|].
  cbn [map dict_lookup existsb]. destruct (String.eqb k a); [reflexivity|].
  exact IH.
Qed.

Lemma dict_append_absent (k : string) (x : json) (d : daily) (b : list json) :
  dict_has k d = false ->
  dict_append k x (d ++ [(k, b)])%list = (d ++ [(k, (b ++ [x])%list)])%list.
Proof.
  unfold dict_has. induction d as [|[k' b'] d IH]; intros H.
  - cbn. now rewrite String.eqb_refl.
  - cbn [app dict_append dict_lookup] in *.
    destruct (String.eqb k k'); [discriminate|]. now rewrite IH.
Qed.

Lemma NoDup_encounter_order (ks : list string) : NoDup (encounter_order ks).
Proof.
  induction ks as [|a ks IH]; cbn [encounter_order]; constructor.
  - intros H. apply filter_In in H as [_ H].
    now rewrite String.eqb_refl in H.
  - now apply NoDup_filter.
Qed.

Lemma dict_append_map (F : string -> list json) (k : string) (x : json)
    (l : list string) :
  NoDup l ->
  dict_append k x (map (fun k' => (k', F k')) l)
  = map (fun k' => (k', (F k' ++ if String.eqb k k' then [x] else [])%list)) l.
Proof.
  induction 1 as [|a l Ha _ IH]; [reflexivity|].
  cbn [map dict_append].
  destruct (String.eqb_spec k a) as [->|N].
  - f_equal. apply map_ext_in. intros b Hb.
    destruct (String.eqb_spec a b) as [->|_]; [now elim Ha|].
    now rewrite app_nil_r.
  - rewrite app_nil_r. now rewrite IH.
Qed.

Lemma filter_on_date_absent (k : string) (items : list json) :
  existsb (String.eqb k) (map date_of items) = false ->
  filter (on_date k) items = [].
Proof.
  induction items as [|x xs IH]; [reflexivity|].
  cbn [map existsb filter]. intros H. apply orb_false_iff in H as [H1 H2].
  unfold on_date at 1. rewrite String.eqb_sym, H1. now apply IH.
Qed.

(** One more round of the grouping loop keeps the buckets the
    specification's buckets. *)
Lemma group_step_spec (items : list json) (x : json) :
  has_timestamp x = true ->
  group_step (spec_buckets items) x = Ok (spec_buckets (items ++ [x])).
Proof.
  intros Hx. unfold group_step. rewrite (entry_date_ok _ Hx). cbn [bind].
  f_equal. unfold spec_buckets.
  rewrite dict_has_map, existsb_encounter_order.
  rewrite map_app. cbn [map]. rewrite encounter_order_snoc.
  destruct (existsb (String.eqb (date_of x)) (map date_of items)) eqn:E;
    cbn [negb].
  - rewrite dict_append_map by apply NoDup_encounter_order.
    apply map_ext. intros k. rewrite filter_app. cbn [filter].
    reflexivity.
  - rewrite dict_append_absent
      by now rewrite dict_has_map, existsb_encounter_order.
    rewrite map_app. cbn [map]. f_equal.
    + apply map_ext_in. intros k Hk. rewrite filter_app. cbn [filter].
      unfold on_date.
      destruct (String.eqb_spec (date_of x) k) as [<-|_];
        [|now rewrite app_nil_r].
      exfalso. rewrite <- existsb_encounter_order in E.
      apply Bool.not_true_iff_false in E. apply E.
      apply existsb_exists. exists (date_of x). split; [exact Hk|].
      apply String.eqb_refl.
    + rewrite filter_app, (filter_on_date_absent _ _ E). cbn [filter app].
      unfold on_date. now rewrite String.eqb_refl.
Qed.

(** The grouping loop computes the specification's buckets, and raises
    only on an entry without a timestamp. *)
Lemma group_loop_spec (items : list json) :
  forallb has_timestamp items = true ->
  for_each group_step items [] = Ok (spec_buckets items).
Proof.
  induction items as [|x items IH] using rev_ind; intros H; [reflexivity|].
  rewrite forallb_app in H. apply andb_true_iff in H as [H1 H2].
  cbn [forallb] in H2. rewrite andb_true_r in H2.
  rewrite for_each_app, (IH H1). cbn [bind for_each].
  rewrite (group_step_spec _ _ H2). reflexivity.
Qed.

Lemma group_loop_result (items : list json) (out : daily) :
  for_each group_step items [] = Ok out ->
  forallb has_timestamp items = true /\ out = spec_buckets items.
Proof.
  intros H. pose proof (group_loop_timestamps _ _ H) as T.
  split; [exact T|]. rewrite (group_loop_spec _ T) in H. congruence.
Qed.

Lemma spec_bucket_in (items : list json) (k : string) (b : list json) :
  In (k, b) (spec_buckets items) ->
  b = filter (on_date k) items /\ In k (map date_of items).
Proof.
  unfold spec_buckets. intros H. apply in_map_iff in H as (k' & E & Hk).
  injection E as -> <-. split; [reflexivity|].
  assert (X : existsb (String.eqb k) (map date_of items) = true).
  { rewrite <- existsb_encounter_order. apply existsb_exists.
    exists k. split; [exact Hk | apply String.eqb_refl]. }
  apply existsb_exists in X as (y & Hy & Ey).
  apply String.eqb_eq in Ey. now subst.
Qed.

Lemma spec_bucket_nonempty (items : list json) (k : string) :
  In k (map date_of items) -> filter (on_date k) items <> [].
Proof.
  intros H. apply in_map_iff in H as (f & E & Hf). intros N.
  assert (X : In f (filter (on_date k) items)).
  { apply filter_In. split; [exact Hf|]. unfold on_date.
    now apply String.eqb_eq. }
  now rewrite N in X.
Qed.

(** *** The midday test *)

Lemma prefix_length (p s : string) :
  prefix p s = true -> (String.length p <= String.length s)%nat.
Proof.
  revert s. induction p as [|a p IH]; intros [|b s];
    cbn [prefix String.length]; try lia; try discriminate.
  destruct (ascii_dec a b); [|discriminate].
  intros H. apply IH in H. lia.
Qed.

Lemma str_contains_short (p s : string) :
  (String.length s < String.length p)%nat -> str_contains p s = false.
Proof.
  induction s as [|b s IH]; cbn [str_contains String.length]; intros H.
  - destruct (prefix p "") eqn:E; [|reflexivity].
    apply prefix_length in E. cbn in E. lia.
  - rewrite IH by lia. rewrite orb_false_r.
    destruct (prefix p (String b s)) eqn:E; [|reflexivity].
    apply prefix_length in E. cbn [String.length] in E. lia.
Qed.

Lemma prefix_same_length (p s : string) :
  String.length s = String.length p -> prefix p s = String.eqb s p.
Proof.
  revert s. induction p as [|a p IH]; intros [|b s]; cbn [String.length];
    try discriminate; intros H.
  - reflexivity.
  - cbn [prefix String.eqb]. destruct (ascii_dec a b) as [->|N].
    + rewrite Ascii.eqb_refl. apply IH. lia.
    + assert (E : Ascii.eqb b a = false) by (apply Ascii.eqb_neq; congruence).
      now rewrite E.
Qed.

Lemma str_contains_same_length (p s : string) :
  String.length s = String.length p -> str_contains p s = String.eqb s p.
Proof.
  intros H. destruct s as [|b s]; cbn [str_contains].
  - now apply prefix_same_length.
  - rewrite str_contains_short by (cbn [String.length] in H; lia).
    rewrite orb_false_r. now apply prefix_same_length.
Qed.

Lemma midday_prefix_shape (c : ascii) (s : string) :
  prefix "12:00:00" (String c s) = true ->
  exists r, s = String "2" (String ":" r).
Proof.
  cbn [prefix]. destruct (ascii_dec "1" c); [|discriminate].
  destruct s as [|c2 s]; cbn [prefix].
  { discriminate. }
  destruct (ascii_dec "2" c2) as [<-|]; [|discriminate].
  destruct s as [|c3 s]; cbn [prefix].
  { discriminate. }
  destruct (ascii_dec ":" c3) as [<-|]; [|discriminate].
  intros _. now exists s.
Qed.

(** On a timestamp of the provider's shape, containing 12:00:00 and having
    12:00:00 as the time are the same test. *)
Lemma shaped_midday (s : string) :
  timestamp_shaped s = true ->
  str_contains "12:00:00" s = String.eqb (after_space s) "12:00:00".
Proof.
  unfold timestamp_shaped. induction s as [|c s IH]; [discriminate|].
  cbn [has_char before_space after_space str_contains].
  destruct (Ascii.eqb_spec c " ") as [->|N].
  - cbn [orb andb has_char negb Ascii.eqb].
    intros H. apply Nat.eqb_eq in H.
    cbn [prefix]. destruct (ascii_dec "1" " ") as [E|_]; [discriminate E|].
    cbn [orb]. now apply str_contains_same_length.
  - destruct (Ascii.eqb_spec " " c) as [E|_]; [now elim N|].
    cbn [orb has_char]. intros H.
    apply andb_true_iff in H as [H H3]. apply andb_true_iff in H as [H1 H2].
    apply negb_true_iff, orb_false_iff in H2 as [H2 H4].
    destruct (prefix "12:00:00" (String c s)) eqn:P.
    { exfalso. apply midday_prefix_shape in P as (r & ->).
      cbn in H4. discriminate. }
    cbn [orb]. apply IH. now rewrite H1, H4, H3.
Qed.

Lemma is_midday_ok (f : json) :
  has_timestamp f = true ->
  is_midday f = Ok (str_contains "12:00:00" (dt_txt_of f)).
Proof.
  unfold has_timestamp, is_midday, dt_txt_of.
  destruct (getitem f "dt_txt") as [[]|]; try discriminate. reflexivity.
Qed.

Lemma next_midday_spec (forecasts : list json) (default : json) :
  forallb has_timestamp forecasts = true ->
  next_midday forecasts default
  = Ok (match find (fun f => str_contains "12:00:00" (dt_txt_of f)) forecasts with
        | Some f => f
        | None => default
        end).
Proof.
  induction forecasts as [|f fs IH]; [reflexivity|].
  cbn [forallb next_midday find]. intros H.
  apply andb_true_iff in H as [H1 H2].
  rewrite (is_midday_ok _ H1). cbn [bind].
  destruct (str_contains "12:00:00" (dt_txt_of f)); [reflexivity|].
  now apply IH.
Qed.

(** On a bucket of entries with timestamps the representative is the first
    entry whose timestamp text contains 12:00:00, else the first entry. *)
Lemma midday_of_spec (forecasts : list json) :
  forecasts <> [] ->
  forallb has_timestamp forecasts = true ->
  exists rep,
    midday_of forecasts = Ok rep
    /\ first_containing_midday forecasts = Some rep
    /\ In rep forecasts.
Proof.
  intros N H. destruct forecasts as [|first rest]; [now elim N|].
  unfold midday_of, first_containing_midday. rewrite next_midday_spec by exact H.
  destruct (find _ (first :: rest)) as [f|] eqn:F.
  - exists f. repeat split. now apply find_some in F.
  - exists first. repeat split. now left.
Qed.

Lemma find_ext_in {X} (f g : X -> bool) (l : list X) :
  (forall x, In x l -> f x = g x) -> find f l = find g l.
Proof.
  induction l as [|x l IH]; [reflexivity|]. intros H. cbn [find].
  rewrite <- (H x) by now left. destruct (f x); [reflexivity|].
  apply IH. intros y Hy. apply H. now right.
Qed.

(** What [find] finds is the first element that passes the test. *)
Lemma find_first {X} (P : X -> bool) (l : list X) :
  match find P l with
  | Some x =>
      exists before after,
        l = (before ++ x :: after)%list /\ P x = true
        /\ forallb (fun y => negb (P y)) before = true
  | None => forallb (fun y => negb (P y)) l = true
  end.
Proof.
  induction l as [|y l IH]; [reflexivity|]. cbn [find].
  destruct (P y) eqn:E.
  - now exists [], l.
  - destruct (find P l) as [x|].
    + destruct IH as (before & after & -> & Px & B).
      exists (y :: before), after. cbn [forallb]. rewrite E.
      now repeat split.
    + cbn [forallb]. now rewrite E.
Qed.

(** On buckets of provider-shaped timestamps the code's choice is the
    specification's. *)
Lemma shaped_representative (forecasts : list json) :
  forallb (fun f => timestamp_shaped (dt_txt_of f)) forecasts = true ->
  first_containing_midday forecasts = spec_representative forecasts.
Proof.
  intros H. unfold first_containing_midday, spec_representative.
  rewrite (find_ext_in _ (fun f => String.eqb (time_of f) "12:00:00")
             forecasts); [reflexivity|].
  intros f Hf. rewrite forallb_forall in H. unfold time_of.
  now apply shaped_midday, H.
Qed.

(** *** Rendering *)

Lemma In_firstn {X} (n : nat) (x : X) (l : list X) :
  In x (firstn n l) -> In x l.
Proof.
  intros H. rewrite <- (firstn_skipn n l). apply in_or_app. now left.
Qed.

Lemma str_concat_cons (x : string) (l : list string) :
  str_concat (x :: l) = x ++ str_concat l.
Proof. reflexivity. Qed.

(** The rendering loop appends the buckets' blocks in order, and raises
    what the first failing block raises. *)
Lemma render_loop_spec (temp_unit : string) (buckets : daily) (output : string) :
  for_each (render_step temp_unit) buckets output
  = (blocks <- collect (day_block temp_unit) buckets ;;
     Ok (output ++ str_concat blocks)).
Proof.
  revert output. induction buckets as [|b bs IH]; intros output.
  - cbn. now rewrite str_app_nil_r.
  - cbn [for_each collect]. unfold render_step at 1.
    destruct (day_block temp_unit b) as [block|e]; cbn [bind]; [|reflexivity].
    rewrite IH.
    destruct (collect (day_block temp_unit) bs) as [blocks|e]; cbn [bind];
      [|reflexivity].
    now rewrite str_concat_cons, str_app_assoc.
Qed.

Lemma collect_Forall2 {X Y} (f : X -> result Y) (xs : list X) (ys : list Y) :
  collect f xs = Ok ys -> Forall2 (fun x y => f x = Ok y) xs ys.
Proof.
  revert ys. induction xs as [|x xs IH]; intros ys; cbn [collect].
  - intros [= <-]. constructor.
  - destruct (f x) as [y|e] eqn:E; cbn [bind]; [|discriminate].
    destruct (collect f xs) as [ys'|e]; cbn [bind]; [|discriminate].
    intros [= <-]. constructor; [exact E | now apply IH].
Qed.

Lemma collect_ok {X Y} (f : X -> result Y) (xs : list X) :
  (forall x, In x xs -> is_ok (f x) = true) ->
  exists ys, collect f xs = Ok ys.
Proof.
  induction xs as [|x xs IH]; intros H; [now exists []|].
  cbn [collect]. pose proof (H x (or_introl eq_refl)) as Hx.
  destruct (f x) as [y|e]; [|discriminate]. cbn [bind].
  destruct IH as [ys ->]; [intros z Hz; apply H; now right|].
  now exists (y :: ys).
Qed.

Lemma block_text_ok (temp_unit : string) (rep : json) :
  renderable rep = true ->
  is_ok (block_text temp_unit (date_of rep) rep) = true.
Proof.
  unfold renderable, block_text. intros H.
  repeat (apply andb_true_iff in H as [H ?]).
  destruct (day_name_of (date_of rep)); [|discriminate].
  destruct (getitem2 rep "main" "temp"); [|discriminate].
  destruct (description_title rep); [|discriminate].
  destruct (getitem2 rep "main" "humidity"); [|discriminate].
  reflexivity.
Qed.

Lemma renderable_timestamp (f : json) :
  renderable f = true -> has_timestamp f = true.
Proof.
  unfold renderable. intros H. now repeat (apply andb_true_iff in H as [H ?]).
Qed.

(** A bucket of the grouping, made of renderable entries, gives a block. *)
Lemma day_block_ok (temp_unit : string) (items : list json) (k : string) :
  forallb renderable items = true ->
  In k (map date_of items) ->
  is_ok (day_block temp_unit (k, filter (on_date k) items)) = true.
Proof.
  intros R Hk. rewrite forallb_forall in R.
  assert (T : forallb has_timestamp (filter (on_date k) items) = true).
  { apply forallb_forall. intros f Hf. apply filter_In in Hf as [Hf _].
    now apply renderable_timestamp, R. }
  destruct (@midday_of_spec _ (@spec_bucket_nonempty items k Hk) T)
    as (rep & M & _ & Hrep).
  cbn [day_block]. rewrite M. cbn [bind].
  apply filter_In in Hrep as [Hrep D]. unfold on_date in D.
  apply String.eqb_eq in D. rewrite <- D.
  now apply block_text_ok, R.
Qed.

Lemma forecast_header_note (data : json) (note : string) :
  is_ok (forecast_header data "") = true ->
  is_ok (forecast_header data note) = true.
Proof.
  unfold forecast_header.
  destruct (getitem2 data "city" "name"); [|discriminate]. cbn [bind].
  destruct (getitem data "city") as [c|]; [|discriminate]. cbn [bind].
  destruct (py_get c "country" (JStr "N/A")); [|discriminate]. reflexivity.
Qed.

(** What [bundle_ok] gives the formatter. *)
Lemma bundle_ok_inv (data : json) :
  bundle_ok data = true ->
  py_in "error" data = Ok false
  /\ (exists demo, py_get data "demo" JNull = Ok demo)
  /\ (forall note, exists header, forecast_header data note = Ok header)
  /\ getitem data "list" = Ok (JList (entries_of data))
  /\ forallb renderable (firstn 40 (entries_of data)) = true.
Proof.
  destruct data as [| | | | |d]; try discriminate. cbn [bundle_ok].
  intros H. apply andb_true_iff in H as [H L].
  apply andb_true_iff in H as [E Hd]. apply negb_true_iff in E.
  unfold entries_of, getitem, py_in, py_get.
  destruct (dict_lookup "list" d) as [[| | | |l|]|]; try discriminate.
  repeat split.
  - now rewrite E.
  - destruct (dict_lookup "demo" d); eauto.
  - intros note. pose proof (forecast_header_note (JDict d) note Hd) as N.
    destruct (forecast_header (JDict d) note) as [h|]; [|discriminate].
    now exists h.
  - exact L.
Qed.

Lemma bundle_ok_groups (data : json) :
  bundle_ok data = true ->
  group_by_date data = Ok (spec_buckets (firstn 40 (entries_of data))).
Proof.
  intros H. apply bundle_ok_inv in H as (_ & _ & _ & L & R).
  unfold group_by_date. rewrite L. cbn [bind slice_items].
  apply group_loop_spec. apply forallb_forall. intros f Hf.
  rewrite forallb_forall in R. now apply renderable_timestamp, R.
Qed.

(** The output on a well-formed bundle: the header, then the blocks of the
    first five buckets of the first forty entries. *)
Lemma format_forecast_blocks (data : json) (units : string) :
  bundle_ok data = true ->
  exists header blocks,
    (exists demo, py_get data "demo" JNull = Ok demo
                  /\ forecast_header data (demo_note_of demo) = Ok header)
    /\ Forall2 (fun bucket block =>
                  day_block (temp_unit_of units) bucket = Ok block)
               (firstn 5 (spec_buckets (firstn 40 (entries_of data)))) blocks
    /\ format_forecast data units = Ok (header ++ str_concat blocks).
Proof.
  intros H. pose proof (bundle_ok_groups _ H) as G.
  destruct (bundle_ok_inv _ H) as (E & (demo & D) & Hh & _ & R).
  destruct (Hh (demo_note_of demo)) as (header & Hheader).
  destruct (collect_ok (day_block (temp_unit_of units))
              (firstn 5 (spec_buckets (firstn 40 (entries_of data)))))
    as (blocks & C).
  { intros [k b] Hb. apply In_firstn in Hb.
    apply spec_bucket_in in Hb as (-> & Hk). now apply day_block_ok. }
  exists header, blocks. split; [|split].
  - now exists demo.
  - now apply collect_Forall2.
  - unfold format_forecast. rewrite E. cbn [bind]. rewrite D. cbn [bind].
    rewrite Hheader. cbn [bind]. rewrite G. cbn [bind].
    rewrite render_loop_spec, C. reflexivity.
Qed.

Lemma day_block_pieces (bucket : string * list json) :
  exists pieces : result (string * string),
    (forall temp_unit,
        day_block temp_unit bucket
        = (p <- pieces ;; Ok (fill_block temp_unit p)))
    /\ (forall cut, pieces = Ok cut -> is_block_cut bucket cut).
Proof.
  destruct bucket as [date forecasts]. cbn [day_block]. unfold block_text.
  destruct (midday_of forecasts) as [rep|e] eqn:M; [|raise_cut e].
  cbn [bind].
  destruct (day_name_of date) as [day_name|e] eqn:D; [|raise_cut e].
  destruct (getitem2 rep "main" "temp") as [temp|e] eqn:T; [|raise_cut e].
  destruct (description_title rep) as [condition|e] eqn:C; [|raise_cut e].
  destruct (getitem2 rep "main" "humidity") as [humidity|e] eqn:H;
    [|raise_cut e].
  exists (Ok (nl ++ "📆 " ++ day_name ++ ", " ++ date ++ nl
              ++ "   🌡️  " ++ py_str temp,
              nl ++ "   ☁️  " ++ condition ++ nl
              ++ "   💧 " ++ py_str humidity ++ "% humidity" ++ nl)).
  split.
  - intros temp_unit. cbn [bind]. unfold fill_block. cbn [fst snd]. f_equal.
    now rewrite !str_app_assoc.
  - intros cut [= <-]. exists rep, day_name, temp, condition, humidity.
    cbn [fst snd]. now repeat split.
Qed.

Lemma day_block_is_block (temp_unit : string) (bucket : string * list json)
    (block : string) :
  day_block temp_unit bucket = Ok block -> is_day_block temp_unit bucket block.
Proof.
  destruct (day_block_pieces bucket) as [[cut|e] [H P]]; rewrite H;
    cbn [bind]; [|discriminate].
  intros [= <-]. exists cut. split; [now apply P | reflexivity].
Qed.

Lemma forecast_header_is_header (data demo : json) (header : string) :
  py_get data "demo" JNull = Ok demo ->
  forecast_header data (demo_note_of demo) = Ok header ->
  is_forecast_header data header.
Proof.
  intros D. unfold forecast_header.
  destruct (getitem2 data "city" "name") as [name|] eqn:N; [|discriminate].
  cbn [bind].
  destruct (getitem data "city") as [city|] eqn:C; [|discriminate].
  cbn [bind].
  destruct (py_get city "country" (JStr "N/A")) as [country|] eqn:Y;
    [|discriminate].
  cbn [bind]. intros [= <-]. exists demo, name, city, country.
  unfold demo_note_of. now repeat split.
Qed.

(** The formatter on a well-formed bundle, with the text of the header
    and of every block spelled out. *)
Lemma format_forecast_pinned (data : json) (units : string) :
  bundle_ok data = true ->
  exists header blocks,
    is_forecast_header data header
    /\ Forall2 (fun bucket block =>
                  day_block (temp_unit_of units) bucket = Ok block
                  /\ is_day_block (temp_unit_of units) bucket block)
               (firstn 5 (spec_buckets (firstn 40 (entries_of data)))) blocks
    /\ format_forecast data units = Ok (header ++ str_concat blocks).
Proof.
  intros H.
  destruct (format_forecast_blocks data units H)
    as (header & blocks & (demo & D & Hh) & F & O).
  exists header, blocks. split; [|split; [|exact O]].
  - exact (forecast_header_is_header data D Hh).
  - revert F. apply Forall2_impl. intros bucket block B.
    split; [exact B | now apply day_block_is_block].
Qed.

Lemma group_by_date_result (data : json) (out : daily) :
  group_by_date data = Ok out ->
  exists items,
    forallb has_timestamp items = true /\ out = spec_buckets items.
Proof.
  unfold group_by_date.
  destruct (getitem data "list") as [entries|]; [|discriminate]. cbn [bind].
  destruct (slice_items 40 entries) as [items|]; [|discriminate]. cbn [bind].
  intros H. exists items. now apply group_loop_result.
Qed.

(** C1, as the code has it.  For every bucket the formatter retains, the
    block is rendered from the representative, which is the first entry of
    the bucket whose timestamp text contains 12:00:00 and, when no entry
    does, the bucket's first entry.  When the bucket's timestamps have the
    provider's shape (a date without a colon, a space, a time of eight
    characters) that entry is the first whose time is exactly 12:00:00,
    else the first entry, as the specification words it. *)
Theorem representative_of_bucket (data : json) (daily_forecasts : daily)
    (date : string) (forecasts : list json) :
  group_by_date data = Ok daily_forecasts ->
  In (date, forecasts) (firstn 5 daily_forecasts) ->
  exists rep,
    midday_of forecasts = Ok rep
    /\ (forall temp_unit,
          day_block temp_unit (date, forecasts)
          = block_text temp_unit date rep)
    /\ ((exists before after,
           forecasts = (before ++ rep :: after)%list
           /\ str_contains "12:00:00" (dt_txt_of rep) = true
           /\ forallb (fun f => negb (str_contains "12:00:00" (dt_txt_of f)))
                 before = true)
        \/ (hd_error forecasts = Some rep
            /\ forallb (fun f => negb (str_contains "12:00:00" (dt_txt_of f)))
                  forecasts = true))
    /\ (forallb (fun f => timestamp_shaped (dt_txt_of f)) forecasts = true ->
        spec_representative forecasts = Some rep).
Proof.
  intros G Hb. apply group_by_date_result in G as (items & T & ->).
  apply In_firstn, spec_bucket_in in Hb as (-> & Hk).
  assert (T' : forallb has_timestamp (filter (on_date date) items) = true).
  { apply forallb_forall. intros f Hf. apply filter_In in Hf as [Hf _].
    rewrite forallb_forall in T. now apply T. }
  destruct (@midday_of_spec _ (@spec_bucket_nonempty items date Hk) T')
    as (rep & M & F & _).
  exists rep. split; [exact M|]. split; [|split].
  - intros temp_unit. cbn [day_block]. now rewrite M.
  - unfold first_containing_midday in F.
    pose proof (find_first
                  (fun f => str_contains "12:00:00" (dt_txt_of f))
                  (filter (on_date date) items)) as W.
    destruct (find _ (filter (on_date date) items)) as [x|].
    + left. injection F as ->. exact W.
    + right. now split.
  - intros S. now rewrite <- shaped_representative.
Qed.

(** The formatter on a well-formed bundle, as one equation in which the
    entries occur only through their first forty. *)
Lemma format_forecast_eq (data : json) (units : string) :
  bundle_ok data = true ->
  format_forecast data units
  = (demo <- py_get data "demo" JNull ;;
     header <- forecast_header data (demo_note_of demo) ;;
     blocks <- collect (day_block (temp_unit_of units))
                 (firstn 5 (spec_buckets (firstn 40 (entries_of data)))) ;;
     Ok (header ++ str_concat blocks)).
Proof.
  intros H. pose proof (bundle_ok_groups _ H) as G.
  destruct (bundle_ok_inv _ H) as (E & _).
  unfold format_forecast. rewrite E. cbn [bind].
  destruct (py_get data "demo" JNull) as [demo|]; [|reflexivity]. cbn [bind].
  destruct (forecast_header data (demo_note_of demo)); [|reflexivity].
  cbn [bind]. rewrite G. cbn [bind]. apply render_loop_spec.
Qed.

(** C2.  On a well-formed bundle the grouping yields one bucket per
    distinct date of the first 40 entries, in the order the dates are first
    met, each holding that date's entries in their order; the output is the
    header followed by the blocks of the first 5 of these buckets, at most 5
    blocks; and a bundle that agrees on the header and on the first 40
    entries gives the same output, whatever follows them. *)
Theorem forecast_window_and_buckets (data : json) (units : string) :
  bundle_ok data = true ->
  group_by_date data = Ok (spec_buckets (firstn 40 (entries_of data)))
  /\ (exists header blocks,
        (exists demo, py_get data "demo" JNull = Ok demo
                      /\ forecast_header data (demo_note_of demo) = Ok header)
        /\ Forall2 (fun bucket block =>
                      day_block (temp_unit_of units) bucket = Ok block)
                   (firstn 5 (spec_buckets (firstn 40 (entries_of data))))
                   blocks
        /\ (length blocks <= 5)%nat
        /\ format_forecast data units = Ok (header ++ str_concat blocks))
  /\ (forall data',
        bundle_ok data' = true ->
        py_get data' "demo" JNull = py_get data "demo" JNull ->
        (forall note, forecast_header data' note = forecast_header data note) ->
        firstn 40 (entries_of data') = firstn 40 (entries_of data) ->
        format_forecast data' units = format_forecast data units).
Proof.
  intros H. split; [now apply bundle_ok_groups|]. split.
  - destruct (format_forecast_blocks data units H)
      as (header & blocks & D & F & O).
    exists header, blocks. repeat split; try assumption.
    apply Forall2_length in F. rewrite <- F. apply firstn_le_length.
  - intros data' H' D Hh L.
    rewrite (format_forecast_eq data' units H'), (format_forecast_eq data units H).
    rewrite D, L.
    destruct (py_get data "demo" JNull); [|reflexivity]. cbn [bind].
    now rewrite Hh.
Qed.

Lemma Forall2_map_l {X Y Z} (F : X -> Y) (R : Y -> Z -> Prop)
    (l : list X) (zs : list Z) :
  Forall2 R (map F l) zs -> Forall2 (fun x z => R (F x) z) l zs.
Proof.
  revert zs. induction l as [|x l IH]; intros zs H; inversion H; subst;
    constructor; [assumption | now apply IH].
Qed.

(** C3, as the code has it.  On a well-formed bundle whose first 40 entries
    span at least 5 distinct dates, 7 for instance, the output is the
    forecast header followed by exactly 5 day-blocks and nothing else:
    those of the first 5 dates in the order they are first met, each the
    block text of that date's entries among the first 40. *)
Theorem forecast_bucket_cap (data : json) (units : string) :
  bundle_ok data = true ->
  (5 <= length (encounter_order (map date_of (firstn 40 (entries_of data)))))%nat ->
  exists header blocks,
    is_forecast_header data header
    /\ format_forecast data units = Ok (header ++ str_concat blocks)
    /\ length blocks = 5%nat
    /\ Forall2 (fun date block =>
                  day_block (temp_unit_of units)
                    (date, filter (on_date date) (firstn 40 (entries_of data)))
                  = Ok block
                  /\ is_day_block (temp_unit_of units)
                       (date,
                        filter (on_date date) (firstn 40 (entries_of data)))
                       block)
               (firstn 5 (encounter_order
                            (map date_of (firstn 40 (entries_of data)))))
               blocks.
Proof.
  intros H N.
  destruct (format_forecast_pinned data units H)
    as (header & blocks & Hh & F & O).
  exists header, blocks. split; [exact Hh|]. split; [exact O|].
  unfold spec_buckets in F. rewrite firstn_map in F.
  apply Forall2_map_l in F. split; [|exact F].
  apply Forall2_length in F. rewrite <- F, length_firstn. lia.
Qed.

(** *** Unit labels *)

Lemma collect_pieces (buckets : daily) :
  exists pieces : result (list (string * string)),
    (forall temp_unit,
        collect (day_block temp_unit) buckets
        = (l <- pieces ;; Ok (map (fill_block temp_unit) l)))
    /\ (forall l, pieces = Ok l -> Forall2 is_block_cut buckets l).
Proof.
  induction buckets as [|b bs [ps [IH IP]]].
  { exists (Ok []). split; [reflexivity|]. intros l [= <-]. constructor. }
  destruct (day_block_pieces b) as [[p|e] [Hb Pb]].
  - destruct ps as [l|e].
    + exists (Ok (p :: l)). split.
      * intros temp_unit. cbn [collect]. now rewrite Hb, IH.
      * intros l' [= <-]. constructor; [now apply Pb | now apply IP].
    + exists (Raise e). split; [|discriminate].
      intros temp_unit. cbn [collect]. now rewrite Hb, IH.
  - exists (Raise e). split; [|discriminate].
    intros temp_unit. cbn [collect]. now rewrite Hb.
Qed.

Lemma current_report_pieces (data demo : json) :
  py_get data "demo" JNull = Ok demo ->
  exists pieces : result (string * string * string * string),
    (forall temp_unit speed_unit,
        current_report data temp_unit speed_unit (demo_note_of demo)
        = (p <- pieces ;; Ok (fill_current p temp_unit speed_unit)))
    /\ (forall cut, pieces = Ok cut -> is_current_cut data cut).
Proof.
  intros Hd. unfold current_report.
  destruct (getitem data "name") as [name|e] eqn:E1; [|raise_cut e].
  destruct (py_get data "sys" (JDict [])) as [sys|e] eqn:E2; [|raise_cut e].
  cbn [bind].
  destruct (py_get sys "country" (JStr "N/A")) as [country|e] eqn:E3;
    [|raise_cut e].
  destruct (getitem2 data "main" "temp") as [temp|e] eqn:E4; [|raise_cut e].
  destruct (getitem2 data "main" "feels_like") as [feels|e] eqn:E5;
    [|raise_cut e].
  destruct (description_title data) as [condition|e] eqn:E6; [|raise_cut e].
  destruct (getitem2 data "main" "humidity") as [humidity|e] eqn:E7;
    [|raise_cut e].
  destruct (getitem2 data "main" "pressure") as [pressure|e] eqn:E8;
    [|raise_cut e].
  destruct (getitem2 data "wind" "speed") as [speed|e] eqn:E9; [|raise_cut e].
  destruct (py_get data "visibility" (JStr "N/A")) as [visibility|e] eqn:E10;
    [|raise_cut e].
  exists (Ok (nl ++ "🌤️  Current Weather for " ++ py_str name ++ ", "
              ++ py_str country ++ nl ++ str_repeat "=" 50 ++ nl
              ++ "🌡️  Temperature: " ++ py_str temp,
              " (feels like " ++ py_str feels,
              ")" ++ nl
              ++ "☁️  Condition: " ++ condition ++ nl
              ++ "💧 Humidity: " ++ py_str humidity ++ "%" ++ nl
              ++ "🔽 Pressure: " ++ py_str pressure ++ " hPa" ++ nl
              ++ "💨 Wind: " ++ py_str speed ++ " ",
              nl ++ "👁️  Visibility: " ++ py_str visibility ++ " meters"
              ++ demo_note_of demo ++ nl)).
  split.
  - intros temp_unit speed_unit. cbn [bind]. unfold fill_current. f_equal.
    now rewrite !str_app_assoc.
  - intros cut [= <-].
    exists demo, name, sys, country, temp, feels, condition, humidity,
      pressure, speed, visibility.
    unfold demo_note_of. now repeat split.
Qed.

(** C7, as the code has it.  On an input that is not an error value,
    metric selects the labels °C and m/s and imperial °F and mph, and the
    unit system reaches the output through these labels only.  The
    current-weather report is one text cut in four, the same for every unit
    system: the temperature label follows the temperature and the
    feels-like temperature, the speed label follows the wind speed.  The
    forecast is its header and one block for each of the first five
    buckets, the same for every unit system, each block cut once, after the
    representative's temperature, with the temperature label in the gap.
    The forecast prints no wind speed, so it has no speed label.  An input
    that makes one unit system raise makes every one raise the same
    exception. *)
Theorem units_only_select_labels (data : json) :
  py_in "error" data = Ok false ->
  temp_unit_of "metric" = "°C" /\ speed_unit_of "metric" = "m/s"
  /\ temp_unit_of "imperial" = "°F" /\ speed_unit_of "imperial" = "mph"
  /\ (exists pieces : result (string * string * string * string),
        (forall units,
            format_current_weather data units
            = (p <- pieces ;;
               Ok (fill_current p (temp_unit_of units) (speed_unit_of units))))
        /\ (forall cut, pieces = Ok cut -> is_current_cut data cut))
  /\ (exists pieces : result (string * list (string * string)),
        (forall units,
            format_forecast data units
            = (p <- pieces ;; Ok (fill_forecast p (temp_unit_of units))))
        /\ (forall header cuts,
              pieces = Ok (header, cuts) ->
              is_forecast_header data header
              /\ exists daily_forecasts,
                  group_by_date data = Ok daily_forecasts
                  /\ Forall2 is_block_cut (firstn 5 daily_forecasts) cuts)).
Proof.
  intros E. do 4 (split; [reflexivity|]). split.
  - unfold format_current_weather. rewrite E. cbn [bind].
    destruct (py_get data "demo" JNull) as [demo|e] eqn:D; [|raise_cut e].
    cbn [bind].
    destruct (current_report_pieces data D) as [ps [H P]].
    exists ps. split; [intros units; apply H | exact P].
  - unfold format_forecast. rewrite E. cbn [bind].
    destruct (py_get data "demo" JNull) as [demo|e] eqn:D; [|raise_cut e].
    cbn [bind].
    destruct (forecast_header data (demo_note_of demo)) as [header|e] eqn:Hh;
      [|raise_cut e].
    cbn [bind].
    destruct (group_by_date data) as [daily_forecasts|e]; [|raise_cut e].
    cbn [bind].
    destruct (collect_pieces (firstn 5 daily_forecasts)) as [[l|e] [H P]].
    + exists (Ok (header, l)). split.
      * intros units. rewrite render_loop_spec, H. reflexivity.
      * intros header' cuts [= <- <-]. split.
        -- exact (forecast_header_is_header data D Hh).
        -- exists daily_forecasts. split; [reflexivity | now apply P].
    + exists (Raise e). split; [|discriminate].
      intros units. rewrite render_loop_spec, H. reflexivity.
Qed.

(** *** The command and the network *)

Lemma main_body_requests (w : world) (weather : WeatherCLI) (args : Args) :
  snd (main_body w weather args)
  = match interrupt w with
    | Some Fetching => []
    | _ =>
      if falsy (api_key weather) then []
      else if args_forecast args then
        [{| req_url := base_url weather ++ "/forecast";
            req_params := [("q", JStr (args_city args));
                           ("appid", key_param weather);
                           ("units", JStr (args_units args));
                           ("cnt", JNum (PyInt 40))];
            req_timeout := 10 |}]
      else
        [{| req_url := base_url weather ++ "/weather";
            req_params := [("q", JStr (args_city args));
                           ("appid", key_param weather);
                           ("units", JStr (args_units args))];
            req_timeout := 10 |}]
    end.
Proof.
  unfold main_body, fetching, get_forecast, get_current_weather.
  destruct (interrupt w) as [[]|], (args_forecast args),
    (falsy (api_key weather)); reflexivity.
Qed.

Lemma main_requests (w : world) (args : Args) :
  requests (main w args)
  = match interrupt w with
    | Some Startup => []
    | _ => snd (main_body w (fst (__init__ (args_api_key args) (getenv_key w)))
                  args)
    end.
Proof.
  assert (A : interrupt w <> Some Startup ->
              requests (main w args)
              = snd (main_body w
                       (fst (__init__ (args_api_key args) (getenv_key w)))
                       args)).
  { intros H. rewrite (@main_after_startup w args H).
    destruct (__init__ (args_api_key args) (getenv_key w)) as [weather warned].
    cbn [fst]. destruct (main_body w weather args) as [[out|e] reqs];
      cbn [snd]; [reflexivity|].
    destruct (is_KeyboardInterrupt (exn_cls e)); [reflexivity|].
    destruct (is_Exception (exn_cls e)); reflexivity. }
  destruct (interrupt w) as [[]|] eqn:I; try (apply A; discriminate).
  unfold main, during. rewrite I. reflexivity.
Qed.

Lemma live_key (a e : option string) (key : string) :
  py_or a e = Some key -> key <> "" ->
  falsy (api_key (fst (__init__ a e))) = false
  /\ key_param (fst (__init__ a e)) = JStr key
  /\ snd (__init__ a e) = [].
Proof.
  intros K N. unfold __init__, key_param. cbn [fst snd api_key].
  rewrite K. cbn [falsy]. apply String.eqb_neq in N. now rewrite N.
Qed.

(** X1.  A run issues at most one request, and none at all when neither
    the flag nor the environment gives a non-empty key. *)
Theorem main_at_most_one_request (w : world) (args : Args) :
  (length (requests (main w args)) <= 1)%nat
  /\ (falsy (py_or (args_api_key args) (getenv_key w)) = true ->
      requests (main w args) = []).
Proof.
  rewrite main_requests.
  assert (B : (length (snd (main_body w
                              (fst (__init__ (args_api_key args)
                                      (getenv_key w))) args)) <= 1)%nat
              /\ (falsy (py_or (args_api_key args) (getenv_key w)) = true ->
                  snd (main_body w
                         (fst (__init__ (args_api_key args) (getenv_key w)))
                         args) = [])).
  { rewrite main_body_requests. cbn [__init__ fst api_key].
    destruct (interrupt w) as [[]|];
      try (split; [cbn; lia | reflexivity]);
      (split; [|now intros ->]);
      (destruct (falsy _); [cbn; lia|]);
      destruct (args_forecast args); cbn; lia. }
  destruct (interrupt w) as [[]|]; try exact B.
  split; [cbn; lia | reflexivity].
Qed.

(** X2.  With a non-empty key, a run that gets past startup issues exactly
    one request, unless the interrupt arrives in the fetch before the
    request is made, when it issues none.  The request goes to [/forecast]
    with [cnt] 40 in forecast mode and to [/weather] without [cnt]
    otherwise; [q] is the city as typed, [appid] the key, [units] the unit
    system, and the timeout is 10. *)
Theorem main_live_request (w : world) (args : Args) (key : string) :
  py_or (args_api_key args) (getenv_key w) = Some key ->
  key <> "" ->
  interrupt w <> Some Startup ->
  requests (main w args)
  = match interrupt w with
    | Some Fetching => []
    | _ =>
      [{| req_url := "http://api.openweathermap.org/data/2.5"
                     ++ (if args_forecast args
                         then "/forecast" else "/weather");
          req_params := ([("q", JStr (args_city args));
                          ("appid", JStr key);
                          ("units", JStr (args_units args))]
                         ++ (if args_forecast args
                             then [("cnt", JNum (PyInt 40))] else []))%list;
          req_timeout := 10 |}]
    end.
Proof.
  intros K N I. rewrite main_requests, main_body_requests.
  destruct (live_key _ _ K N) as (F & P & _). rewrite F, P.
  destruct (interrupt w) as [[]|]; try (now elim I); try reflexivity;
    destruct (args_forecast args); reflexivity.
Qed.

(** X3.  The constructor takes the flag's key when it is not empty and the
    environment's otherwise, and prints the three warning lines exactly when
    both are missing or empty; else it prints nothing. *)
Theorem credential_resolution (flag getenv : option string) :
  (forall k, flag = Some k -> k <> "" ->
     api_key (fst (__init__ flag getenv)) = Some k)
  /\ (falsy flag = true -> api_key (fst (__init__ flag getenv)) = getenv)
  /\ (falsy flag = true /\ falsy getenv = true ->
      snd (__init__ flag getenv) = demo_warning)
  /\ (falsy flag = false \/ falsy getenv = false ->
      snd (__init__ flag getenv) = [])
  /\ length demo_warning = 3%nat.
Proof.
  unfold __init__, py_or. cbn [fst snd api_key]. repeat split.
  - intros k -> N. cbn [falsy]. apply String.eqb_neq in N. now rewrite N.
  - now intros ->.
  - intros [-> ->]. reflexivity.
  - intros [F|F].
    + now rewrite !F.
    + destruct (falsy flag) eqn:Fl; [now rewrite F | now rewrite Fl].
Qed.

(** X4.  With a credential, an exception of the attempt that is not a
    [RequestException], an interrupt for one, is not turned into an error
    value: both fetches raise it unchanged, after their one request. *)
Theorem fetch_propagates_other_exceptions (self : WeatherCLI) (net : network)
    (city units : string) (days : Z) (e : exn) :
  falsy (api_key self) = false ->
  (forall req, attempt_fault (net req) = Some e) ->
  is_RequestException (exn_cls e) = false ->
  fst (get_current_weather self net city units) = Raise e
  /\ fst (get_forecast self net city units days) = Raise e
  /\ length (snd (get_current_weather self net city units)) = 1%nat
  /\ length (snd (get_forecast self net city units days)) = 1%nat.
Proof.
  intros K F R. unfold get_current_weather, get_forecast. rewrite K.
  cbn [fst snd]. rewrite !attempt_spec, !F, R. repeat split.
Qed.

(** X5.  With a credential and no interrupt, a fetch that fails with a
    [RequestException] is not a failure of the run: in either mode it
    prints the one error line with the exception's text and returns, so the
    exit status is 0. *)
Theorem main_reports_api_failure (w : world) (args : Args) (key : string)
    (e : exn) :
  py_or (args_api_key args) (getenv_key w) = Some key ->
  key <> "" ->
  interrupt w = None ->
  (forall req, attempt_fault (net w req) = Some e) ->
  is_RequestException (exn_cls e) = true ->
  stdout (main w args) = ["❌ Error: API request failed: " ++ exn_str e]
  /\ ended (main w args) = Returned.
Proof.
  intros K N I F R.
  assert (S : interrupt w <> Some Startup) by (rewrite I; discriminate).
  rewrite (@main_after_startup w args S).
  destruct (live_key _ _ K N) as (L & _ & W).
  destruct (__init__ (args_api_key args) (getenv_key w)) as [weather warned].
  cbn [fst snd] in *. subst warned.
  unfold main_body, fetching, during, get_forecast, get_current_weather.
  rewrite I, L. cbn [fst snd].
  destruct (args_forecast args); rewrite attempt_spec, F, R; split; reflexivity.
Qed.

(** *** The formatters on odd inputs *)

(** X7.  The formatters work on dicts only: on any other decoded body, a
    list, a string, a number, a boolean or null, both raise the same
    [TypeError] or [AttributeError], whatever the unit system. *)
Theorem formatters_reject_non_dicts (data : json) (units : string) :
  (forall d, data <> JDict d) ->
  exists e,
    format_current_weather data units = Raise e
    /\ format_forecast data units = Raise e
    /\ (exn_cls e = TypeError \/ exn_cls e = AttributeError).
Proof.
  intros H. unfold format_current_weather, format_forecast.
  destruct data as [|b|[z|r]|s|l|d]; try (now elim (H d));
    cbn [py_in bind];
    try (eexists; split; [reflexivity|]; split; [reflexivity|];
         now left).
  - destruct (str_contains "error" s); cbn [bind getitem py_get];
      eexists; (split; [reflexivity|]); (split; [reflexivity|]);
      [now left | now right].
  - destruct (existsb (is_str "error") l); cbn [bind getitem py_get];
      eexists; (split; [reflexivity|]); (split; [reflexivity|]);
      [now left | now right].
Qed.

(** X8.  A dict that is not an error value and lacks a required key makes
    the formatter raise [KeyError] for that key: ['name'] for the current
    weather, ['city'] for the forecast, whatever else it holds. *)
Theorem missing_required_key (d : list (string * json)) (units : string) :
  dict_lookup "error" d = None ->
  (dict_lookup "name" d = None ->
   format_current_weather (JDict d) units = Raise (Exn KeyError "'name'"))
  /\ (dict_lookup "city" d = None ->
      format_forecast (JDict d) units = Raise (Exn KeyError "'city'")).
Proof.
  intros E. split; intros M.
  - unfold format_current_weather, current_report, py_in, py_get, dict_has,
      getitem.
    rewrite E. cbn [bind]. destruct (dict_lookup "demo" d); cbn [bind];
      now rewrite M.
  - unfold format_forecast, forecast_header, getitem2, py_in, py_get,
      dict_has, getitem.
    rewrite E. cbn [bind]. destruct (dict_lookup "demo" d); cbn [bind];
      now rewrite M.
Qed.

(** X9.  With a credential and no interrupt, a body that decodes to a dict
    without [error] and without [name] ends a current-weather run with the
    line ["Unexpected error: 'name'"] and exit status 1: a malformed
    response is an error of the run, unlike a failed request. *)
Theorem main_malformed_response (w : world) (args : Args) (key : string)
    (d : list (string * json)) :
  py_or (args_api_key args) (getenv_key w) = Some key ->
  key <> "" ->
  interrupt w = None ->
  args_forecast args = false ->
  (forall req, exists response,
      net w req = Ok response
      /\ raise_for_status response = Ok tt
      /\ response_json response = Ok (JDict d)) ->
  dict_lookup "error" d = None ->
  dict_lookup "name" d = None ->
  stdout (main w args) = ["❌ Unexpected error: 'name'"]
  /\ ended (main w args) = Exited 1.
Proof.
  intros K N I M R E Nm.
  assert (S : interrupt w <> Some Startup) by (rewrite I; discriminate).
  rewrite (@main_after_startup w args S).
  destruct (live_key _ _ K N) as (L & _ & W).
  destruct (__init__ (args_api_key args) (getenv_key w)) as [weather warned].
  cbn [fst snd] in *. subst warned.
  unfold main_body, fetching, during, get_current_weather. rewrite I, M, L.
  cbn [fst snd]. unfold attempt, try_except.
  match goal with |- context [net w ?r] =>
    destruct (R r) as (response & Hn & Hr & J) end.
  rewrite Hn. cbn [bind]. rewrite Hr. cbn [bind]. rewrite J.
  assert (X : format_current_weather (JDict d) (args_units args)
              = Raise (Exn KeyError "'name'")).
  { unfold format_current_weather, current_report, py_in, py_get, dict_has,
      getitem.
    rewrite E. cbn [bind]. destruct (dict_lookup "demo" d); cbn [bind];
      now rewrite Nm. }
  cbn [bind]. rewrite X. split; reflexivity.
Qed.

Lemma temp_unit_not_metric (units : string) :
  units <> "metric" ->
  temp_unit_of units = temp_unit_of "imperial"
  /\ speed_unit_of units = speed_unit_of "imperial".
Proof.
  intros N. unfold temp_unit_of, speed_unit_of.
  apply String.eqb_neq in N. now rewrite N.
Qed.

(** X10.  The labels are metric only for the unit system spelled exactly
    [metric]: any other text, [kelvin] or [Metric] for instance, gives the
    output of [imperial]. *)
Theorem labels_default_to_imperial (data : json) (units : string) :
  units <> "metric" ->
  format_current_weather data units = format_current_weather data "imperial"
  /\ format_forecast data units = format_forecast data "imperial".
Proof.
  intros N. destruct (temp_unit_not_metric N) as [T S].
  unfold format_current_weather, format_forecast. now rewrite T, S.
Qed.

(** *** Optional keys *)

Lemma lookup_app_other {V} (k k' : string) (v : V) (d : list (string * V)) :
  k <> k' -> dict_lookup k (d ++ [(k', v)])%list = dict_lookup k d.
Proof.
  intros N. induction d as [|[a x] d IH]; cbn [app dict_lookup].
  - apply String.eqb_neq in N. now rewrite N.
  - now rewrite IH.
Qed.

Lemma lookup_app_absent {V} (k : string) (v : V) (d : list (string * V)) :
  dict_lookup k d = None -> dict_lookup k (d ++ [(k, v)])%list = Some v.
Proof.
  induction d as [|[a x] d IH]; cbn [app dict_lookup].
  - now rewrite String.eqb_refl.
  - destruct (String.eqb k a); [discriminate | exact IH].
Qed.

(** What the formatters read of a dict is the value of each key. *)
Lemma format_current_weather_ext (d1 d2 : list (string * json))
    (units : string) :
  (forall k, k <> "visibility" -> dict_lookup k d1 = dict_lookup k d2) ->
  py_get (JDict d1) "visibility" (JStr "N/A")
  = py_get (JDict d2) "visibility" (JStr "N/A") ->
  format_current_weather (JDict d1) units
  = format_current_weather (JDict d2) units.
Proof.
  intros H V.
  unfold format_current_weather, current_report, getitem2, description_title.
  rewrite V. unfold py_in, py_get, dict_has, getitem.
  rewrite !(H "error"), !(H "demo"), !(H "name"), !(H "sys"), !(H "main"),
    !(H "weather"), !(H "wind") by discriminate.
  reflexivity.
Qed.

(** X11.  An absent optional key reads as its default: the current-weather
    report of a dict without [visibility] is that of the dict with
    [visibility] set to ['N/A'], without [sys] that with [sys] an empty
    dict, and for both formatters without [demo] that with [demo] false. *)
Theorem absent_optional_keys (d : list (string * json)) (units : string) :
  (dict_lookup "visibility" d = None ->
   format_current_weather (JDict d) units
   = format_current_weather
       (JDict (d ++ [("visibility", JStr "N/A")])%list) units)
  /\ (dict_lookup "sys" d = None ->
      format_current_weather (JDict d) units
      = format_current_weather (JDict (d ++ [("sys", JDict [])])%list) units)
  /\ (dict_lookup "demo" d = None ->
      format_current_weather (JDict d) units
      = format_current_weather (JDict (d ++ [("demo", JBool false)])%list)
          units
      /\ format_forecast (JDict d) units
         = format_forecast (JDict (d ++ [("demo", JBool false)])%list) units).
Proof.
  split; [|split].
  - intros A. apply format_current_weather_ext.
    + intros k N. now rewrite lookup_app_other.
    + unfold py_get. now rewrite A, lookup_app_absent.
  - intros A.
    unfold format_current_weather, current_report, getitem2,
      description_title, py_in, py_get, dict_has, getitem.
    rewrite (@lookup_app_absent _ "sys" (JDict []) d A).
    rewrite !(@lookup_app_other _ "error"), !(@lookup_app_other _ "demo"),
      !(@lookup_app_other _ "name"), !(@lookup_app_other _ "main"),
      !(@lookup_app_other _ "weather"), !(@lookup_app_other _ "wind"),
      !(@lookup_app_other _ "visibility") by discriminate.
    now rewrite A.
  - intros A. split.
    + unfold format_current_weather, current_report, getitem2,
        description_title, py_in, py_get, dict_has, getitem.
      rewrite (@lookup_app_absent _ "demo" (JBool false) d A).
      rewrite !(@lookup_app_other _ "error"), !(@lookup_app_other _ "sys"),
        !(@lookup_app_other _ "name"), !(@lookup_app_other _ "main"),
        !(@lookup_app_other _ "weather"), !(@lookup_app_other _ "wind"),
        !(@lookup_app_other _ "visibility") by discriminate.
      now rewrite A.
    + unfold format_forecast, forecast_header, group_by_date, getitem2,
        py_in, py_get, dict_has, getitem.
      rewrite (@lookup_app_absent _ "demo" (JBool false) d A).
      rewrite !(@lookup_app_other _ "error"), !(@lookup_app_other _ "city"),
        !(@lookup_app_other _ "list") by discriminate.
      now rewrite A.
Qed.

(** *** More on the grouping *)

(** X12.  On a well-formed bundle the output is the forecast header
    followed by one day-block for each of the first 5 distinct dates of the
    first 40 entries, in the order they are first met, and nothing else: as
    many blocks as there are such dates, capped at 5, and with no entry the
    header alone. *)
Theorem forecast_block_count (data : json) (units : string) :
  bundle_ok data = true ->
  exists header blocks,
    is_forecast_header data header
    /\ format_forecast data units = Ok (header ++ str_concat blocks)
    /\ Forall2 (fun date block =>
                  is_day_block (temp_unit_of units)
                    (date, filter (on_date date) (firstn 40 (entries_of data)))
                    block)
               (firstn 5 (encounter_order
                            (map date_of (firstn 40 (entries_of data)))))
               blocks
    /\ length blocks
       = Nat.min 5 (length (encounter_order
                              (map date_of (firstn 40 (entries_of data)))))
    /\ (firstn 40 (entries_of data) = [] ->
        format_forecast data units = Ok header).
Proof.
  intros H.
  destruct (format_forecast_pinned data units H)
    as (header & blocks & Hh & F & O).
  exists header, blocks. split; [exact Hh|]. split; [exact O|].
  assert (E : firstn 40 (entries_of data) = [] ->
              format_forecast data units = Ok header).
  { intros E. rewrite E in F. cbn in F. inversion F; subst.
    rewrite O. cbn. now rewrite str_app_nil_r. }
  unfold spec_buckets in F. rewrite firstn_map in F.
  apply Forall2_map_l in F. split; [|split; [|exact E]].
  - revert F. apply Forall2_impl. now intros date block [_ B].
  - apply Forall2_length in F. now rewrite <- F, length_firstn.
Qed.

(** X13.  The grouping raises exactly when one of the first 40 entries has
    no [dt_txt] that is a string: every one of them is checked, also those
    of dates that are not displayed, and none after the 40th is. *)
Theorem grouping_raises_iff (data : json) (l : list json) :
  getitem data "list" = Ok (JList l) ->
  is_ok (group_by_date data) = forallb has_timestamp (firstn 40 l).
Proof.
  intros L. unfold group_by_date. rewrite L. cbn [bind slice_items].
  destruct (forallb has_timestamp (firstn 40 l)) eqn:T.
  - now rewrite group_loop_spec.
  - destruct (for_each group_step (firstn 40 l) []) as [out|e] eqn:G;
      [|reflexivity].
    apply group_loop_timestamps in G. congruence.
Qed.

Lemma In_encounter_order (k : string) (ks : list string) :
  In k ks -> In k (encounter_order ks).
Proof.
  intros H.
  assert (X : existsb (String.eqb k) (encounter_order ks) = true).
  { rewrite existsb_encounter_order. apply existsb_exists.
    exists k. split; [exact H | apply String.eqb_refl]. }
  apply existsb_exists in X as (y & Hy & E).
  apply String.eqb_eq in E. now subst.
Qed.

Lemma buckets_without (x : json) (items : list json) (ks : list string) :
  ~ In (date_of x) ks ->
  map (fun k => filter (on_date k) (x :: items)) ks
  = map (fun k => filter (on_date k) items) ks.
Proof.
  intros N. apply map_ext_in. intros k Hk.
  replace (filter (on_date k) (x :: items))
    with (if String.eqb (date_of x) k
          then x :: filter (on_date k) items
          else filter (on_date k) items) by reflexivity.
  destruct (String.eqb_spec (date_of x) k) as [E|_]; [|reflexivity].
  subst. now elim N.
Qed.

(** A new entry goes to one bucket, that of its date. *)
Lemma buckets_with (x : json) (items : list json) (ks : list string) :
  NoDup ks -> In (date_of x) ks ->
  Permutation
    (concat (map (fun k => filter (on_date k) (x :: items)) ks))
    (x :: concat (map (fun k => filter (on_date k) items) ks)).
Proof.
  induction 1 as [|k ks Hk ND IH]; intros H; [now elim H|].
  cbn [map concat].
  replace (filter (on_date k) (x :: items))
    with (if String.eqb (date_of x) k
          then x :: filter (on_date k) items
          else filter (on_date k) items) by reflexivity.
  destruct (String.eqb_spec (date_of x) k) as [E|N].
  - subst k. rewrite buckets_without by exact Hk. reflexivity.
  - destruct H as [H|H]; [now elim N|].
    rewrite (IH H). symmetry. apply Permutation_middle.
Qed.

Lemma buckets_permutation (items : list json) (ks : list string) :
  NoDup ks ->
  (forall f, In f items -> In (date_of f) ks) ->
  Permutation (concat (map (fun k => filter (on_date k) items) ks)) items.
Proof.
  intros ND. induction items as [|x items IH]; intros H.
  - clear. induction ks as [|k ks IHk]; cbn; [constructor | exact IHk].
  - rewrite buckets_with; [|exact ND | apply H; now left].
    constructor. apply IH. intros f Hf. apply H. now right.
Qed.

Lemma before_space_no_space (s : string) :
  has_char " " (before_space s) = false.
Proof.
  induction s as [|c s IH]; [reflexivity|]. cbn [before_space].
  destruct (Ascii.eqb_spec c " ") as [->|N]; [reflexivity|].
  cbn [has_char]. rewrite IH.
  destruct (Ascii.eqb_spec " " c) as [E|_]; [now elim N | reflexivity].
Qed.

(** X14.  The buckets partition the first 40 entries: their keys are
    distinct and hold no space, no bucket is empty, every entry of a bucket
    carries the bucket's date, and the buckets laid end to end are the first
    40 entries rearranged, so that no entry is lost or repeated. *)
Theorem grouping_is_partition (data : json) (l : list json)
    (daily_forecasts : daily) :
  getitem data "list" = Ok (JList l) ->
  group_by_date data = Ok daily_forecasts ->
  NoDup (map fst daily_forecasts)
  /\ (forall date forecasts,
        In (date, forecasts) daily_forecasts ->
        forecasts <> []
        /\ has_char " " date = false
        /\ forall f, In f forecasts -> date_of f = date)
  /\ Permutation (concat (map snd daily_forecasts)) (firstn 40 l).
Proof.
  intros L G. unfold group_by_date in G. rewrite L in G.
  cbn [bind slice_items] in G.
  apply group_loop_result in G as (_ & ->).
  unfold spec_buckets. rewrite !map_map. cbn [fst snd]. rewrite map_id.
  split; [apply NoDup_encounter_order|]. split.
  - intros date forecasts Hb.
    apply (@spec_bucket_in (firstn 40 l)) in Hb as (-> & Hk).
    split; [now apply spec_bucket_nonempty|]. split.
    + apply in_map_iff in Hk as (f & <- & _). apply before_space_no_space.
    + intros f Hf. apply filter_In in Hf as [_ D].
      now apply String.eqb_eq in D.
  - apply buckets_permutation; [apply NoDup_encounter_order|].
    intros f Hf. apply In_encounter_order. now apply in_map.
Qed.

(** X15.  Of the entries, the rendering reads only the representatives of
    the first five buckets: when the first 40 entries have timestamps and
    these representatives are renderable the formatter returns, whatever
    the other entries hold and whatever the later dates are. *)
Theorem forecast_reads_representatives (d : list (string * json))
    (l : list json) (units : string) :
  dict_lookup "error" d = None ->
  is_ok (forecast_header (JDict d) "") = true ->
  dict_lookup "list" d = Some (JList l) ->
  forallb has_timestamp (firstn 40 l) = true ->
  (forall date forecasts rep,
      In (date, forecasts) (firstn 5 (spec_buckets (firstn 40 l))) ->
      first_containing_midday forecasts = Some rep ->
      renderable rep = true) ->
  is_ok (format_forecast (JDict d) units) = true.
Proof.
  intros E Hh L T R.
  unfold format_forecast, group_by_date, py_in, py_get, dict_has, getitem.
  rewrite E, L. cbn [bind slice_items].
  assert (B : is_ok (collect (day_block (temp_unit_of units))
                       (firstn 5 (spec_buckets (firstn 40 l)))) = true).
  { destruct (collect_ok (day_block (temp_unit_of units))
                (firstn 5 (spec_buckets (firstn 40 l)))) as (blocks & ->);
      [|reflexivity].
    intros [k b] Hb. pose proof (R k b) as Rb.
    apply In_firstn in Hb as Hb'. apply spec_bucket_in in Hb' as (-> & Hk).
    assert (T' : forallb has_timestamp (filter (on_date k) (firstn 40 l))
                 = true).
    { apply forallb_forall. intros f Hf. apply filter_In in Hf as [Hf _].
      rewrite forallb_forall in T. now apply T. }
    destruct (@midday_of_spec _ (@spec_bucket_nonempty _ k Hk) T')
      as (rep & M & F & Hrep).
    cbn [day_block]. rewrite M. cbn [bind].
    apply filter_In in Hrep as [_ D]. apply String.eqb_eq in D.
    rewrite <- D. apply block_text_ok. exact (Rb rep Hb F). }
  destruct (dict_lookup "demo" d) as [demo|]; cbn [bind];
    match goal with |- context [forecast_header _ ?note] =>
      pose proof (forecast_header_note (JDict d) note Hh) as N;
      destruct (forecast_header (JDict d) note) as [header|];
        [|discriminate]
    end;
    cbn [bind]; rewrite (group_loop_spec _ T); cbn [bind];
    rewrite render_loop_spec;
    (destruct (collect _ _); [reflexivity | discriminate]).
Qed.

End WeatherCLI.

(** ** The properties on concrete inputs *)

Lemma format_error_value_witness :
  is_error_value (api_error (Exn RequestException "timed out"))
                 "API request failed: timed out"
  /\ format_current_weather ascii_title no_container
       (api_error (Exn RequestException "timed out")) "metric"
     = Ok "❌ Error: API request failed: timed out".
Proof.
  assert (H : is_error_value (api_error (Exn RequestException "timed out"))
                             "API request failed: timed out").
  { eexists. split; reflexivity. }
  split; [exact H|].
  exact (proj1 (format_error_value ascii_title no_container "metric" H)).
Defined.

Lemma demo_fetch_is_synthetic_witness :
  falsy (api_key (fst (__init__ None None))) = true
  /\ get_current_weather ascii_title (fst (__init__ None None)) timeout_network
       "paris" "metric"
     = (Ok (_get_demo_weather ascii_title "paris"), [])
  /\ getitem (_get_demo_weather ascii_title "paris") "name" = Ok (JStr "Paris").
Proof.
  split; [reflexivity|].
  pose proof (@demo_fetch_is_synthetic ascii_title (fst (__init__ None None))
                timeout_network "paris" "metric" 5 eq_refl) as H.
  split; [exact (proj1 H) | exact (proj1 (proj2 (proj2 (proj2 (proj2 H)))))].
Defined.

Lemma demo_fetch_ignores_units_witness :
  falsy (api_key (fst (__init__ None (Some "")))) = true
  /\ get_current_weather ascii_title (fst (__init__ None (Some "")))
       timeout_network "paris" "metric"
     = get_current_weather ascii_title (fst (__init__ None (Some "")))
         timeout_network "paris" "imperial".
Proof.
  split; [reflexivity|].
  exact (proj1 (@demo_fetch_ignores_units ascii_title no_container
                  (fst (__init__ None (Some ""))) timeout_network
                  "paris" "metric" "imperial" 5 eq_refl)).
Defined.

Lemma live_fetch_single_attempt_witness :
  falsy (api_key live_client) = false
  /\ exists req,
      snd (get_current_weather ascii_title live_client timeout_network
             "London" "metric") = [req]
      /\ req_url req = "http://api.openweathermap.org/data/2.5/weather"
      /\ req_timeout req = 10%Z
      /\ fst (get_current_weather ascii_title live_client timeout_network
                "London" "metric")
         = Ok (api_error (Exn RequestException
                            "Read timed out. (read timeout=10)")).
Proof.
  split; [reflexivity|].
  destruct (proj1 (@live_fetch_single_attempt ascii_title live_client
                     timeout_network "London" "metric" 5 eq_refl))
    as (req & L & U & T & F).
  exists req. repeat split; assumption.
Defined.

Lemma main_handles_try_block_witness :
  interrupt (world_interrupted Fetching) <> Some Startup
  /\ stdout (main ascii_title no_container (world_interrupted Fetching)
               paris_args)
     = (demo_warning ++ [farewell])%list
  /\ ended (main ascii_title no_container (world_interrupted Fetching)
              paris_args)
     = Exited 0.
Proof.
  assert (H : interrupt (world_interrupted Fetching) <> Some Startup)
    by discriminate.
  split; [exact H|].
  exact (proj1 (proj2 (proj2 (@main_handles_try_block ascii_title no_container
                                (world_interrupted Fetching) paris_args H)))
           eq_refl).
Defined.

Lemma representative_of_bucket_witness :
  group_by_date (bundle [morning_entry; noon_entry])
  = Ok [("2024-09-22", [morning_entry; noon_entry])]
  /\ exists rep,
      midday_of [morning_entry; noon_entry] = Ok rep
      /\ spec_representative [morning_entry; noon_entry] = Some rep.
Proof.
  assert (G : group_by_date (bundle [morning_entry; noon_entry])
              = Ok [("2024-09-22", [morning_entry; noon_entry])])
    by reflexivity.
  split; [exact G|].
  destruct (@representative_of_bucket ascii_title no_container
              (bundle [morning_entry; noon_entry]) _
              "2024-09-22" [morning_entry; noon_entry] G
              (or_introl eq_refl))
    as (rep & M & _ & _ & S).
  exists rep. split; [exact M | exact (S eq_refl)].
Defined.

Lemma forecast_window_and_buckets_witness :
  bundle_ok ascii_title no_container (bundle crowded_entries) = true
  /\ group_by_date (bundle crowded_entries)
     = Ok (spec_buckets (firstn 40 (entries_of (bundle crowded_entries)))).
Proof.
  assert (H : bundle_ok ascii_title no_container (bundle crowded_entries) = true)
    by (vm_compute; reflexivity).
  split; [exact H|].
  exact (proj1 (@forecast_window_and_buckets ascii_title no_container
                  (bundle crowded_entries) "metric" H)).
Defined.

Lemma forecast_bucket_cap_witness :
  bundle_ok ascii_title no_container (bundle week_entries) = true
  /\ length (encounter_order (map date_of (entries_of (bundle week_entries))))
     = 7%nat
  /\ exists header blocks,
      format_forecast ascii_title no_container (bundle week_entries) "metric"
      = Ok (header ++ str_concat blocks)
      /\ length blocks = 5%nat.
Proof.
  assert (H : bundle_ok ascii_title no_container (bundle week_entries) = true)
    by (vm_compute; reflexivity).
  split; [exact H|]. split; [reflexivity|].
  assert (N : (5 <= length (encounter_order
                              (map date_of
                                 (firstn 40 (entries_of (bundle week_entries))))))%nat)
    by (vm_compute; lia).
  destruct (@forecast_bucket_cap ascii_title no_container
              (bundle week_entries) "metric" H N)
    as (header & blocks & _ & O & L & _).
  exists header, blocks. split; assumption.
Defined.

Lemma units_only_select_labels_witness :
  py_in "error" (_get_demo_weather ascii_title "paris") = Ok false
  /\ exists pieces : result (string * string * string * string),
      forall units,
        format_current_weather ascii_title no_container
          (_get_demo_weather ascii_title "paris") units
        = (p <- pieces ;;
           Ok (fill_current p (temp_unit_of units) (speed_unit_of units))).
Proof.
  split; [reflexivity|].
  destruct (proj1 (proj2 (proj2 (proj2 (proj2
              (@units_only_select_labels ascii_title no_container
                 (_get_demo_weather ascii_title "paris") eq_refl))))))
    as (pieces & H & _).
  exists pieces. exact H.
Defined.

(** The run of the specification's first example: Paris, no credential. *)
Example paris_current_report :
  format_current_weather ascii_title no_container
    (_get_demo_weather ascii_title "Paris") "metric"
  = Ok (nl ++ "🌤️  Current Weather for Paris, DEMO" ++ nl
        ++ str_repeat "=" 50 ++ nl
        ++ "🌡️  Temperature: 22.5°C (feels like 24.1°C)" ++ nl
        ++ "☁️  Condition: Clear Sky" ++ nl
        ++ "💧 Humidity: 65%" ++ nl
        ++ "🔽 Pressure: 1013 hPa" ++ nl
        ++ "💨 Wind: 3.2 m/s" ++ nl
        ++ "👁️  Visibility: 10000 meters" ++ nl
        ++ "🔧 DEMO MODE - Using sample data" ++ nl).
Proof. reflexivity. Qed.

(** Its second example: a timeout while fetching London. *)
Example london_timeout_report :
  fst (get_current_weather ascii_title live_client timeout_network
         "London" "metric")
  = Ok (api_error (Exn RequestException "Read timed out. (read timeout=10)"))
  /\ format_current_weather ascii_title no_container
       (api_error (Exn RequestException "Read timed out. (read timeout=10)"))
       "metric"
     = Ok "❌ Error: API request failed: Read timed out. (read timeout=10)".
Proof. split; reflexivity. Qed.

(** An empty bundle gives the header and no block. *)
Example empty_forecast_report :
  format_forecast ascii_title no_container (bundle []) "metric"
  = Ok (nl ++ "📅 5-Day Weather Forecast for Paris, FR" ++ nl
        ++ str_repeat "=" 60 ++ nl).
Proof. reflexivity. Qed.

(** ** Where the specification says more than the code does *)

(** C1.  A day whose entries are at 09:00:00 and at 12:00:00.500: no entry
    has 12:00:00 as its time, so the representative should be the first
    entry; the code picks the second, whose text contains 12:00:00. *)
Lemma representative_substring_counterexample :
  group_by_date (bundle [morning_entry; fraction_entry])
  = Ok [("2024-09-22", [morning_entry; fraction_entry])]
  /\ time_of morning_entry = "09:00:00"
  /\ time_of fraction_entry = "12:00:00.500"
  /\ spec_representative [morning_entry; fraction_entry] = Some morning_entry
  /\ midday_of [morning_entry; fraction_entry] = Ok fraction_entry
  /\ fraction_entry <> morning_entry.
Proof.
  repeat split; try reflexivity. discriminate.
Qed.

(** C4.  With a credential, an interrupt that arrives while the request is
    under way is not a [RequestException]: it is not caught, and both
    fetches raise it to the caller in place of returning a value. *)
Lemma interrupt_escapes_fetch_counterexample :
  falsy (api_key live_client) = false
  /\ fst (get_current_weather ascii_title live_client interrupting_network
            "London" "metric")
     = Raise (Exn KeyboardInterrupt "")
  /\ fst (get_forecast ascii_title live_client interrupting_network
            "London" "metric" 5)
     = Raise (Exn KeyboardInterrupt "")
  /\ is_ok (fst (get_current_weather ascii_title live_client
                   interrupting_network "London" "metric")) = false
  /\ is_ok (fst (get_forecast ascii_title live_client interrupting_network
                   "London" "metric" 5)) = false.
Proof. repeat split. Qed.

(** C3.  A bundle of 46 entries on 7 dates, the first 40 of them on the
    first date: the output has one day-block, not five. *)
Lemma crowded_day_counterexample :
  length (encounter_order (map date_of (entries_of (bundle crowded_entries))))
  = 7%nat
  /\ exists header block,
      forecast_header no_container (bundle crowded_entries) "" = Ok header
      /\ day_block ascii_title no_container "°C"
           ("2024-09-22", firstn 40 crowded_entries) = Ok block
      /\ format_forecast ascii_title no_container (bundle crowded_entries)
           "metric" = Ok (header ++ str_concat [block])
      /\ str_count "📆" (header ++ str_concat [block]) = 1%nat
      /\ length [block] <> 5%nat.
Proof.
  split; [reflexivity|]. do 2 eexists.
  split; [reflexivity|]. split; [reflexivity|].
  split; [vm_compute; reflexivity|].
  split; [vm_compute; reflexivity | discriminate].
Qed.

(** C7.  The forecast of the canned bundle, in either unit system, has a
    temperature label and no speed label. *)
Lemma forecast_speed_label_counterexample :
  exists metric imperial,
    format_forecast ascii_title no_container
      (_get_demo_forecast ascii_title "paris") "metric" = Ok metric
    /\ format_forecast ascii_title no_container
         (_get_demo_forecast ascii_title "paris") "imperial" = Ok imperial
    /\ str_contains "°C" metric = true
    /\ str_contains "m/s" metric = false
    /\ str_contains "°F" imperial = true
    /\ str_contains "mph" imperial = false.
Proof.
  do 2 eexists. split; [reflexivity|]. split; [reflexivity|].
  repeat split; vm_compute; reflexivity.
Qed.

(** C8.  An interrupt that arrives before the [try] block is not handled:
    nothing is printed, and the run ends with the [KeyboardInterrupt]
    reaching the interpreter, not with exit status 0. *)
Lemma startup_interrupt_counterexample :
  stdout (main ascii_title no_container (world_interrupted Startup) paris_args)
  = []
  /\ ended (main ascii_title no_container (world_interrupted Startup)
              paris_args)
     = Uncaught (Exn KeyboardInterrupt "")
  /\ ended (main ascii_title no_container (world_interrupted Startup)
              paris_args)
     <> Exited 0.
Proof.
  repeat split; try reflexivity. discriminate.
Qed.

(** ** The further properties on concrete inputs *)

Lemma main_live_request_witness :
  requests (main ascii_title no_container (quiet_world timeout_network)
              london_forecast_args)
  = [{| req_url := "http://api.openweathermap.org/data/2.5/forecast";
        req_params := [("q", JStr "London"); ("appid", JStr "secret");
                       ("units", JStr "imperial");
                       ("cnt", JNum (PyInt 40))];
        req_timeout := 10 |}]
  /\ requests (main ascii_title no_container (world_interrupted Fetching)
                 london_forecast_args)
     = [].
Proof.
  assert (N : "secret" <> "") by discriminate.
  assert (I : interrupt (quiet_world timeout_network) <> Some Startup)
    by discriminate.
  assert (J : interrupt (world_interrupted Fetching) <> Some Startup)
    by discriminate.
  split.
  - exact (@main_live_request ascii_title no_container
             (quiet_world timeout_network) london_forecast_args "secret"
             eq_refl N I).
  - exact (@main_live_request ascii_title no_container
             (world_interrupted Fetching) london_forecast_args "secret"
             eq_refl N J).
Defined.

Lemma interrupting_network_faults (req : request) :
  attempt_fault (interrupting_network req) = Some (Exn KeyboardInterrupt "").
Proof. reflexivity. Defined.

Lemma fetch_propagates_other_exceptions_witness :
  fst (get_current_weather ascii_title live_client interrupting_network
         "London" "metric")
  = Raise (Exn KeyboardInterrupt "").
Proof.
  exact (proj1 (@fetch_propagates_other_exceptions ascii_title live_client
                  interrupting_network "London" "metric" 5
                  (Exn KeyboardInterrupt "") eq_refl
                  interrupting_network_faults eq_refl)).
Defined.

Lemma timeout_network_fault (req : request) :
  attempt_fault (timeout_network req)
  = Some (Exn RequestException "Read timed out. (read timeout=10)").
Proof. reflexivity. Defined.

Lemma main_reports_api_failure_witness :
  stdout (main ascii_title no_container (quiet_world timeout_network)
            london_args)
  = ["❌ Error: API request failed: Read timed out. (read timeout=10)"]
  /\ ended (main ascii_title no_container (quiet_world timeout_network)
              london_args)
     = Returned.
Proof.
  assert (N : "secret" <> "") by discriminate.
  exact (@main_reports_api_failure ascii_title no_container
           (quiet_world timeout_network) london_args "secret"
           (Exn RequestException "Read timed out. (read timeout=10)")
           eq_refl N eq_refl timeout_network_fault eq_refl).
Defined.

Lemma list_is_no_dict (d : list (string * json)) : JList [] <> JDict d.
Proof. discriminate. Defined.

Lemma formatters_reject_non_dicts_witness :
  exists e,
    format_current_weather ascii_title no_container (JList []) "metric"
    = Raise e
    /\ format_forecast ascii_title no_container (JList []) "metric" = Raise e
    /\ (exn_cls e = TypeError \/ exn_cls e = AttributeError).
Proof.
  exact (@formatters_reject_non_dicts ascii_title no_container (JList [])
           "metric" list_is_no_dict).
Defined.

Lemma missing_required_key_witness :
  format_current_weather ascii_title no_container nameless_body "metric"
  = Raise (Exn KeyError "'name'").
Proof.
  exact (proj1 (@missing_required_key ascii_title no_container
                  [("main", JDict [("temp", JNum (PyFloat "22.5"))])]
                  "metric" eq_refl)
           eq_refl).
Defined.

Lemma answering_network_answers (body : json) (req : request) :
  exists response,
    answering_network body req = Ok response
    /\ raise_for_status response = Ok tt
    /\ response_json response = Ok body.
Proof. eexists. repeat split. Defined.

Lemma main_malformed_response_witness :
  stdout (main ascii_title no_container
            (quiet_world (answering_network nameless_body)) london_args)
  = ["❌ Unexpected error: 'name'"]
  /\ ended (main ascii_title no_container
              (quiet_world (answering_network nameless_body)) london_args)
     = Exited 1.
Proof.
  assert (N : "secret" <> "") by discriminate.
  exact (@main_malformed_response ascii_title no_container
           (quiet_world (answering_network nameless_body)) london_args
           "secret" [("main", JDict [("temp", JNum (PyFloat "22.5"))])]
           eq_refl N eq_refl eq_refl
           (answering_network_answers nameless_body) eq_refl eq_refl).
Defined.

Lemma labels_default_to_imperial_witness :
  format_current_weather ascii_title no_container
    (_get_demo_weather ascii_title "paris") "kelvin"
  = format_current_weather ascii_title no_container
      (_get_demo_weather ascii_title "paris") "imperial".
Proof.
  assert (N : "kelvin" <> "metric") by discriminate.
  exact (proj1 (@labels_default_to_imperial ascii_title no_container
                  (_get_demo_weather ascii_title "paris") "kelvin" N)).
Defined.

Lemma forecast_block_count_witness :
  bundle_ok ascii_title no_container (bundle [morning_entry; noon_entry])
  = true
  /\ exists header blocks,
      format_forecast ascii_title no_container
        (bundle [morning_entry; noon_entry]) "metric"
      = Ok (header ++ str_concat blocks)
      /\ length blocks = 1%nat.
Proof.
  assert (H : bundle_ok ascii_title no_container
                (bundle [morning_entry; noon_entry]) = true)
    by (vm_compute; reflexivity).
  split; [exact H|].
  destruct (@forecast_block_count ascii_title no_container
              (bundle [morning_entry; noon_entry]) "metric" H)
    as (header & blocks & _ & O & _ & L & _).
  exists header, blocks. split; [exact O | exact L].
Defined.

Lemma grouping_raises_iff_witness :
  is_ok (group_by_date (bundle [nameless_body; noon_entry])) = false
  /\ is_ok (group_by_date (bundle crowded_entries)) = true.
Proof.
  split.
  - exact (@grouping_raises_iff (bundle [nameless_body; noon_entry])
             [nameless_body; noon_entry] eq_refl).
  - rewrite (@grouping_raises_iff (bundle crowded_entries) crowded_entries
               eq_refl).
    vm_compute. reflexivity.
Defined.

Lemma grouping_is_partition_witness :
  Permutation
    (concat (map snd (spec_buckets (firstn 40 crowded_entries))))
    (firstn 40 crowded_entries).
Proof.
  assert (G : group_by_date (bundle crowded_entries)
              = Ok (spec_buckets (firstn 40 crowded_entries)))
    by (vm_compute; reflexivity).
  exact (proj2 (proj2 (@grouping_is_partition (bundle crowded_entries)
                         crowded_entries _ eq_refl G))).
Defined.

Lemma sparse_representatives (date : string) (forecasts : list json)
    (rep : json) :
  In (date, forecasts) (firstn 5 (spec_buckets (firstn 40 sparse_entries))) ->
  first_containing_midday forecasts = Some rep ->
  renderable ascii_title rep = true.
Proof.
  intros Hb Hr.
  assert (A : forallb
                (fun b : string * list json =>
                   match first_containing_midday (snd b) with
                   | Some r => renderable ascii_title r
                   | None => true
                   end)
                (firstn 5 (spec_buckets (firstn 40 sparse_entries))) = true)
    by (vm_compute; reflexivity).
  rewrite forallb_forall in A. specialize (A _ Hb). cbn [snd] in A.
  now rewrite Hr in A.
Defined.

Lemma forecast_reads_representatives_witness :
  bundle_ok ascii_title no_container (bundle sparse_entries) = false
  /\ is_ok (format_forecast ascii_title no_container (bundle sparse_entries)
              "metric")
     = true.
Proof.
  split; [vm_compute; reflexivity|].
  exact (@forecast_reads_representatives ascii_title no_container
           [("city", JDict [("name", JStr "Paris"); ("country", JStr "FR")]);
            ("list", JList sparse_entries)]
           sparse_entries "metric" eq_refl eq_refl eq_refl eq_refl
           sparse_representatives).
Defined.
